(** * Cursor usage-based billing monitor: a model of [src/index.ts]

    The worker polls the billing status of a list of accounts, turns the
    spending limit off where it finds it on, and reports to an operator
    through a chat webhook.  This file embeds the worker's functions and
    proves the properties of its per-account decision, of its run loop and
    of its HTTP surface.

    Modelling conventions.
    - Values have their declared TypeScript types: an [Account] has two
      strings, a [GetHardLimitResponse] two optional fields.  A [number]
      is an integer; the program only compares it with zero and prints it.
    - The stored list is the exception.  [JSON.parse(...) as Account[]]
      checks nothing, so the run controller is embedded twice:
      [Unchecked.handleScheduled] takes whatever JSON value the parse
      gives, as the code does, and [handleScheduled] is the same run on
      stored texts that parse to a list of accounts
      ([run_on_account_list]).
    - The outside world answers each outbound request from a script, one
      script per remote service; a script that has run out answers with a
      network error.
    - A computation returns a value or throws, threads the world and
      emits the events it causes (console lines and outbound requests),
      in order. *)

From Stdlib Require Import String Ascii List ZArith Bool Lia.
From Stdlib Require Import DecimalString.
Import ListNotations.
Open Scope string_scope.
Open Scope Z_scope.

(** ** Values *)

Definition number := Z.

(** A JSON value: a [JSON.stringify] argument, kept as the value that is
    serialised, or what [JSON.parse] gives. *)
#[warnings="-register-all"]
Inductive JsonValue : Type :=
| JNull
| JBool (b : bool)
| JNum (n : number)
| JStr (s : string)
| JArr (items : list JsonValue)
| JObj (fields : list (string * JsonValue)).

Record JsError : Type := { name : string; message : string }.

(** [`${error}`] *)
Definition error_to_string (e : JsError) : string :=
  name e ++ ": " ++ message e.

(** [`${n}`] for an integral number. *)
Definition number_to_string (n : number) : string :=
  NilZero.string_of_int (Z.to_int n).

(** [interface Env]: the storage binding, read-only here, and the secret.
    [CURSOR_KV.get] yields [string | null]; a secret that was never set
    is [undefined] when the worker runs.  [None] is either. *)
Record Env : Type := {
  CURSOR_KV : string -> option string;
  WECHAT_WEBHOOK_KEY : option string
}.

Record Account : Type := { email : string; cookie : string }.

Record GetHardLimitResponse : Type := {
  noUsageBasedAllowed : option bool;
  hardLimit : option number
}.

(** The shape the webhook's answer is cast to. *)
Record WeChatResult : Type := { errcode : number; errmsg : string }.

Definition DISABLE_HARD_LIMIT_BODY : JsonValue :=
  JObj [ ("hardLimit", JNum 0);
         ("noUsageBasedAllowed", JBool true);
         ("preserveHardLimitPerUser", JBool false);
         ("perUserMonthlyLimitDollars", JNum 0);
         ("clearPerUserMonthlyLimitDollars", JBool false);
         ("isDynamicTeamLimit", JBool false) ].

(** ** The platform *)

(** The second argument of the outbound [fetch]. *)
Record RequestInit : Type := {
  method : string;
  headers : list (string * string);
  body : JsonValue
}.

Inductive Level : Type := Log | Warn | Error.

Inductive Event : Type :=
| Console (lvl : Level) (line : string)
| Fetch (url : string) (init : RequestInit).

(** What an outbound [fetch] comes back with: a rejection, or a response
    with its [ok] flag, its status and what [response.json()] gives, which
    is itself a rejection when the body does not parse. *)
Record Response (B : Type) : Type := {
  ok : bool;
  status : Z;
  json_body : JsError + B
}.

Arguments ok {B} r.
Arguments status {B} r.
Arguments json_body {B} r.

Inductive Reply (B : Type) : Type :=
| Rejected (e : JsError)
| Replied (r : Response B).

Arguments Rejected {B} e.
Arguments Replied {B} r.

Record World : Type := {
  clock : string;
  get_hard_limit : list (Reply GetHardLimitResponse);
  set_hard_limit : list (Reply unit);
  webhook_send : list (Reply WeChatResult)
}.

Inductive Outcome (A : Type) : Type :=
| Ok (a : A)
| Throw (e : JsError).

Arguments Ok {A} a.
Arguments Throw {A} e.

Definition M (A : Type) : Type := World -> Outcome A * World * list Event.

Definition ret {A} (a : A) : M A := fun w => (Ok a, w, []).

Definition throw {A} (e : JsError) : M A := fun w => (Throw e, w, []).

Definition bind {A B} (m : M A) (k : A -> M B) : M B := fun w =>
  match m w with
  | (Ok a, w1, ev1) => let '(r, w2, ev2) := k a w1 in (r, w2, (ev1 ++ ev2)%list)
  | (Throw e, w1, ev1) => (Throw e, w1, ev1)
  end.

(** [try { m } catch (error) { h error }] *)
Definition try_catch {A} (m : M A) (h : JsError -> M A) : M A := fun w =>
  match m w with
  | (Ok a, w1, ev1) => (Ok a, w1, ev1)
  | (Throw e, w1, ev1) => let '(r, w2, ev2) := h e w1 in (r, w2, (ev1 ++ ev2)%list)
  end.

Declare Scope js_scope.
Delimit Scope js_scope with js.
Notation "x <- m ;; k" := (bind m (fun x => k))
  (at level 100, m at next level, right associativity) : js_scope.
Notation "m ;; k" := (bind m (fun _ => k))
  (at level 100, right associativity) : js_scope.
Open Scope js_scope.

Definition outcome {A} (m : M A) (w : World) : Outcome A := fst (fst (m w)).
Definition world_after {A} (m : M A) (w : World) : World := snd (fst (m w)).
Definition events {A} (m : M A) (w : World) : list Event := snd (m w).

Definition emit (e : Event) : M unit := fun w => (Ok tt, w, [e]).

Definition console_log (line : string) : M unit := emit (Console Log line).
Definition console_warn (line : string) : M unit := emit (Console Warn line).
Definition console_error (line : string) : M unit := emit (Console Error line).

(** [new Date().toISOString()] *)
Definition Date_now_iso : M string := fun w => (Ok (clock w), w, []).

(** The error of a request nobody answers. *)
Definition no_reply : JsError :=
  {| name := "TypeError"; message := "fetch failed" |}.

(** A remote service: where its script sits in the world. *)
Record Service (B : Type) : Type := {
  script : World -> list (Reply B);
  advance : World -> list (Reply B) -> World
}.

Arguments script {B} s w.
Arguments advance {B} s w tl.

Definition dashboard_get_hard_limit : Service GetHardLimitResponse :=
  {| script := get_hard_limit;
     advance := fun w tl =>
       {| clock := clock w; get_hard_limit := tl;
          set_hard_limit := set_hard_limit w;
          webhook_send := webhook_send w |} |}.

Definition dashboard_set_hard_limit : Service unit :=
  {| script := set_hard_limit;
     advance := fun w tl =>
       {| clock := clock w; get_hard_limit := get_hard_limit w;
          set_hard_limit := tl;
          webhook_send := webhook_send w |} |}.

Definition wechat_webhook : Service WeChatResult :=
  {| script := webhook_send;
     advance := fun w tl =>
       {| clock := clock w; get_hard_limit := get_hard_limit w;
          set_hard_limit := set_hard_limit w;
          webhook_send := tl |} |}.

(** [await fetch(url, init)], answered by the service behind [url]: the
    request is recorded and the next reply of the script is consumed. *)
Definition fetch {B} (svc : Service B) (url : string) (init : RequestInit)
    : M (Response B) := fun w =>
  match script svc w with
  | [] => (Throw no_reply, w, [Fetch url init])
  | Rejected e :: tl => (Throw e, advance svc w tl, [Fetch url init])
  | Replied r :: tl => (Ok r, advance svc w tl, [Fetch url init])
  end.

(** [await response.json()] *)
Definition response_json {B} (r : Response B) : M B :=
  match json_body r with
  | inl e => throw e
  | inr v => ret v
  end.

(** The test [if (!s) { ... }] on a string that may be missing: [None]
    when [s] is [null], [undefined] or empty, the string otherwise. *)
Definition truthy (s : option string) : option string :=
  match s with
  | Some v => if (v =? "")%string then None else Some v
  | None => None
  end.

(** ** Notifier *)

Definition WEBHOOK_URL (webhookKey : string) : string :=
  "https://qyapi.weixin.qq.com/cgi-bin/webhook/send?key=" ++ webhookKey.

Definition text_message (message : string) : RequestInit :=
  {| method := "POST";
     headers := [("Content-Type", "application/json")];
     body := JObj [ ("msgtype", JStr "text");
                    ("text", JObj [("content", JStr message)]) ] |}.

Definition KEY_MISSING : string := "企业微信 Webhook Key 未配置".

Definition sendWeChatNotification (webhookKey : option string)
    (message : string) : M bool :=
  match truthy webhookKey with
  | None =>
      console_error KEY_MISSING ;;
      ret false
  | Some webhookKey =>
      let url := WEBHOOK_URL webhookKey in
      try_catch
        (response <- fetch wechat_webhook url (text_message message) ;;
         if negb (ok response) then
           console_error ("发送通知失败: HTTP "
                          ++ number_to_string (status response)) ;;
           ret false
         else
           result <- response_json response ;;
           if negb (errcode result =? 0) then
             console_error ("发送通知失败: " ++ errmsg result) ;;
             ret false
           else
             console_log ("通知发送成功: " ++ message) ;;
             ret true)
        (fun error =>
           console_error ("发送通知异常: " ++ error_to_string error) ;;
           ret false)
  end.

(** ** StatusChecker and LimitDisabler *)

Definition GET_HARD_LIMIT_URL : string :=
  "https://cursor.com/api/dashboard/get-hard-limit".

Definition SET_HARD_LIMIT_URL : string :=
  "https://cursor.com/api/dashboard/set-hard-limit".

(** The request both dashboard calls make, up to the body. *)
Definition dashboard_request (cookie : string) (payload : JsonValue)
    : RequestInit :=
  {| method := "POST";
     headers :=
       [ ("Content-Type", "application/json");
         ("Cookie", cookie);
         ("User-Agent",
          "Mozilla/5.0 (Windows NT 10.0; Win64; x64) AppleWebKit/537.36");
         ("Origin", "https://cursor.com");
         ("Referer", "https://cursor.com/settings") ];
     body := payload |}.

(** [null] is [None]. *)
Definition checkHardLimit (cookie : string)
    : M (option GetHardLimitResponse) :=
  let url := GET_HARD_LIMIT_URL in
  try_catch
    (response <- fetch dashboard_get_hard_limit url
                   (dashboard_request cookie (JObj [])) ;;
     if negb (ok response) then
       console_error ("检查状态失败: HTTP "
                      ++ number_to_string (status response)) ;;
       ret None
     else
       v <- response_json response ;;
       ret (Some v))
    (fun error =>
       console_error ("检查状态异常: " ++ error_to_string error) ;;
       ret None).

Definition disableHardLimit (cookie : string) : M bool :=
  let url := SET_HARD_LIMIT_URL in
  try_catch
    (response <- fetch dashboard_set_hard_limit url
                   (dashboard_request cookie DISABLE_HARD_LIMIT_BODY) ;;
     if negb (ok response) then
       console_error ("关闭按量付费失败: HTTP "
                      ++ number_to_string (status response)) ;;
       ret false
     else
       console_log "按量付费已关闭" ;;
       ret true)
    (fun error =>
       console_error ("关闭按量付费异常: " ++ error_to_string error) ;;
       ret false).

(** ** AccountProcessor *)

(** The notification texts. *)
Definition MSG_CHECK_FAILED (email : string) : string :=
  "账号 " ++ email ++ " 检查失败，可能 Cookie 已过期，请更新 Cookie".

Definition MSG_DISABLED (email : string) (limit : number) : string :=
  "账号 " ++ email ++ " 按量付费被开启（限额 $" ++ number_to_string limit
    ++ "），已自动关闭".

Definition MSG_DISABLE_FAILED (email : string) : string :=
  "账号 " ++ email ++ " 按量付费被开启，但自动关闭失败，请手动处理！".

(** [status.noUsageBasedAllowed === true] *)
Definition is_true (v : option bool) : bool :=
  match v with
  | Some true => true
  | _ => false
  end.

(** [status.hardLimit !== undefined && status.hardLimit > 0], with the
    value at hand when it holds. *)
Definition positive_limit (v : option number) : option number :=
  match v with
  | Some limit => if limit >? 0 then Some limit else None
  | None => None
  end.

Definition processAccount (account : Account) (webhookKey : option string)
    : M unit :=
  console_log ("检查账号: " ++ email account) ;;
  status <- checkHardLimit (cookie account) ;;
  match status with
  | None =>
      console_error ("账号 " ++ email account ++ " 检查失败，可能 Cookie 已过期") ;;
      sendWeChatNotification webhookKey (MSG_CHECK_FAILED (email account)) ;;
      ret tt
  | Some status =>
      if is_true (noUsageBasedAllowed status) then
        console_log ("账号 " ++ email account ++ " 按量付费未开启，状态正常") ;;
        ret tt
      else
        match positive_limit (hardLimit status) with
        | Some limit =>
            console_warn ("账号 " ++ email account ++ " 按量付费已开启 (限额: $"
                          ++ number_to_string limit ++ ")，正在关闭...") ;;
            success <- disableHardLimit (cookie account) ;;
            (if success : bool then
               sendWeChatNotification webhookKey
                 (MSG_DISABLED (email account) limit)
             else
               sendWeChatNotification webhookKey
                 (MSG_DISABLE_FAILED (email account))) ;;
            ret tt
        | None =>
            console_log ("账号 " ++ email account ++ " 状态正常")
        end
  end.

(** ** RunController *)

Definition MSG_CONFIG_MISSING : string :=
  "脚本因错误停止：未找到账号配置，请在 KV 中添加 cursor_accounts".

Definition MSG_CONFIG_MALFORMED : string :=
  "脚本因错误停止：账号配置 JSON 格式错误，请检查".

Definition MSG_ACCOUNT_ERROR (email : string) : string :=
  "处理账号 " ++ email ++ " 时发生错误，请查看日志".

(** [`${accounts.length}`] *)
Definition length_to_string {A} (l : list A) : string :=
  number_to_string (Z.of_nat (List.length l)).

(** The [catch] block of the run loop. *)
Definition on_account_error (webhookKey : option string) (account : Account)
    (error : JsError) : M unit :=
  console_error ("处理账号 " ++ email account ++ " 时发生错误: "
                 ++ error_to_string error) ;;
  sendWeChatNotification webhookKey (MSG_ACCOUNT_ERROR (email account)) ;;
  ret tt.

Section RunController.

(** [JSON.parse(accountsJson) as Account[]], for stored texts that are
    lists of accounts: the parser throws or gives the list.  The run on
    every parsed value is [Unchecked.handleScheduled_with]. *)
Variable JSON_parse : string -> JsError + list Account.

(** The per-account step the loop guards.  The worker runs
    [processAccount]; the loop is stated for any step, so that its [catch]
    can be exercised by a step that throws. *)
Variable process : Account -> option string -> M unit.

(** [for (const account of accounts) { try {...} catch (error) {...} }] *)
Fixpoint for_each_account (webhookKey : option string)
    (accounts : list Account) : M unit :=
  match accounts with
  | [] => ret tt
  | account :: rest =>
      try_catch
        (process account webhookKey)
        (on_account_error webhookKey account) ;;
      for_each_account webhookKey rest
  end.

Definition handleScheduled_with (env : Env) : M unit :=
  console_log "=== Cursor 按量付费监控任务开始 ===" ;;
  now <- Date_now_iso ;;
  console_log ("执行时间: " ++ now) ;;
  let accountsJson := CURSOR_KV env "cursor_accounts" in
  match truthy accountsJson with
  | None =>
      console_error "未找到账号配置，请在 KV 中添加 cursor_accounts" ;;
      sendWeChatNotification (WECHAT_WEBHOOK_KEY env) MSG_CONFIG_MISSING ;;
      ret tt
  | Some accountsJson =>
      match JSON_parse accountsJson with
      | inl error =>
          console_error ("解析账号配置失败: " ++ error_to_string error) ;;
          sendWeChatNotification (WECHAT_WEBHOOK_KEY env)
            MSG_CONFIG_MALFORMED ;;
          ret tt
      | inr accounts =>
          if (List.length accounts =? 0)%nat then
            console_log "账号列表为空"
          else
            console_log ("共有 " ++ length_to_string accounts
                         ++ " 个账号需要检查") ;;
            for_each_account (WECHAT_WEBHOOK_KEY env) accounts ;;
            console_log "=== Cursor 按量付费监控任务完成 ==="
      end
  end.

End RunController.

Definition handleScheduled (JSON_parse : string -> JsError + list Account)
    (env : Env) : M unit :=
  handleScheduled_with JSON_parse processAccount env.

(** ** EntryPoints *)

(** An incoming request, with its URL already parsed by [new URL]. *)
Record Request : Type := {
  request_method : string;
  pathname : string;
  search : string
}.

(** [new Response(JSON.stringify(value), { headers })]: the status is the
    constructor's default. *)
Record HttpResponse : Type := {
  response_status : Z;
  response_headers : list (string * string);
  response_body : JsonValue
}.

Definition json_response (value : JsonValue) : HttpResponse :=
  {| response_status := 200;
     response_headers := [("Content-Type", "application/json")];
     response_body := value |}.

(** [ctx.waitUntil(task)]: the task runs to its end; a rejection stays
    with the runtime. *)
Definition waitUntil (task : M unit) : M unit := fun w =>
  let '(_, w1, ev) := task w in (Ok tt, w1, ev).

Module Worker.
Section Handlers.

Variable JSON_parse : string -> JsError + list Account.

(** The cron trigger. *)
Definition scheduled (env : Env) : M unit :=
  waitUntil (handleScheduled JSON_parse env).

(** The HTTP entry. *)
Definition fetch (request : Request) (env : Env) : M HttpResponse :=
  if (pathname request =? "/check")%string then
    waitUntil (handleScheduled JSON_parse env) ;;
    ret (json_response
           (JObj [ ("status", JStr "ok");
                   ("message", JStr "检查任务已触发，请查看日志") ]))
  else if (pathname request =? "/health")%string then
    now <- Date_now_iso ;;
    ret (json_response
           (JObj [ ("status", JStr "healthy");
                   ("timestamp", JStr now) ]))
  else
    ret (json_response
           (JObj [ ("name", JStr "Cursor 按量付费监控");
                   ("endpoints",
                    JObj [ ("/check", JStr "手动触发检查");
                           ("/health", JStr "健康检查") ]) ])).

End Handlers.
End Worker.

(** ** The run controller on whatever the parse gives *)

(** The properties the run reads off parsed values. *)
Inductive PropertyName : Type := prop_length | prop_email | prop_cookie.

Definition property_key (p : PropertyName) : string :=
  match p with
  | prop_length => "length"
  | prop_email => "email"
  | prop_cookie => "cookie"
  end.

(** A member of a parsed object: of two members with one key, the parse
    keeps the later. *)
Fixpoint lookup (k : string) (fields : list (string * JsonValue))
    : option JsonValue :=
  match fields with
  | [] => None
  | (k', v) :: rest =>
      match lookup k rest with
      | Some later => Some later
      | None => if (k' =? k)%string then Some v else None
      end
  end.

(** A byte that continues a UTF-8 sequence. *)
Definition is_continuation (c : ascii) : bool :=
  (128 <=? nat_of_ascii c)%nat && (nat_of_ascii c <? 192)%nat.

(** The string goes on in the middle of a code point. *)
Definition continues (s : string) : bool :=
  match s with
  | String d _ => is_continuation d
  | EmptyString => false
  end.

(** The code points of a string, each with its bytes. *)
Fixpoint code_points (s : string) : list string :=
  match s with
  | EmptyString => []
  | String c rest =>
      match code_points rest with
      | point :: points =>
          if continues rest then String c point :: points
          else String c "" :: point :: points
      | [] => [String c ""]
      end
  end.

(** [s.length]: two units for a code point of four bytes, one for the
    others. *)
Definition utf16_length (s : string) : number :=
  fold_right
    (fun point n =>
       match point with
       | String c _ => if (240 <=? nat_of_ascii c)%nat then 2 + n else 1 + n
       | EmptyString => n
       end)
    0 (code_points s).

Definition TypeError (text : string) : JsError :=
  {| name := "TypeError"; message := text |}.

(** [v.p]: it throws on [null], and is [undefined], here [None], where the
    value has no such property.  A parsed object has the members of its
    text, an array and a string have their [length]. *)
Definition get_property (v : JsonValue) (p : PropertyName)
    : JsError + option JsonValue :=
  match v with
  | JNull =>
      inl (TypeError ("Cannot read properties of null (reading '"
                      ++ property_key p ++ "')"))
  | JObj fields => inr (lookup (property_key p) fields)
  | JArr items =>
      inr match p with
          | prop_length => Some (JNum (Z.of_nat (List.length items)))
          | _ => None
          end
  | JStr s =>
      inr match p with
          | prop_length => Some (JNum (utf16_length s))
          | _ => None
          end
  | JBool _ | JNum _ => inr None
  end.

(** [String(v)], where there is one.  An array joins its items, [null]
    items as empty texts.  A parsed object is ["[object Object]"] by the
    method it inherits; a member [toString] of its own hides that method
    and is no function, and then the object has no text. *)
Fixpoint to_string (v : JsonValue) : option string :=
  match v with
  | JNull => Some "null"
  | JBool true => Some "true"
  | JBool false => Some "false"
  | JNum n => Some (number_to_string n)
  | JStr s => Some s
  | JArr items =>
      option_map (String.concat ",")
        ((fix texts (items : list JsonValue) : option (list string) :=
            match items with
            | [] => Some []
            | item :: rest =>
                match match item with
                      | JNull => Some ""
                      | _ => to_string item
                      end, texts rest with
                | Some text, Some others => Some (text :: others)
                | _, _ => None
                end
            end) items)
  | JObj fields =>
      match lookup "toString" fields with
      | Some _ => None
      | None => Some "[object Object]"
      end
  end.

(** [`${v}`] for a value that may be [undefined]; [fetch] makes the text
    of a header value the same way. *)
Definition template (v : option JsonValue) : JsError + string :=
  match v with
  | Some v =>
      match to_string v with
      | Some text => inr text
      | None => inl (TypeError "Cannot convert object to primitive value")
      end
  | None => inr "undefined"
  end.

(** [v === 0] *)
Definition is_zero (v : option JsonValue) : bool :=
  match v with
  | Some (JNum n) => n =? 0
  | _ => false
  end.

(** What [for (const account of v)] goes through: the items of an array,
    the code points of a string; nothing else that the parse gives can be
    iterated. *)
Definition iterate (v : JsonValue) : JsError + list JsonValue :=
  match v with
  | JArr items => inr items
  | JStr s => inr (map JStr (code_points s))
  | _ => inl (TypeError "accounts is not iterable")
  end.

(** [`${account.email}`] *)
Definition email_text (account : JsonValue) : JsError + string :=
  match get_property account prop_email with
  | inl error => inl error
  | inr v => template v
  end.

(** A result that is a value or an error, as a computation. *)
Definition eval {A} (r : JsError + A) : M A :=
  match r with
  | inl error => throw error
  | inr a => ret a
  end.

Module Unchecked.

(** [checkHardLimit], [disableHardLimit] and [processAccount] as they run
    on an item of the parsed value.  The item's [cookie] goes into the
    request as it is, and [fetch], inside the [try], makes the header of
    it. *)
Definition checkHardLimit (cookie : option JsonValue)
    : M (option GetHardLimitResponse) :=
  let url := GET_HARD_LIMIT_URL in
  try_catch
    (header <- eval (template cookie) ;;
     response <- fetch dashboard_get_hard_limit url
                   (dashboard_request header (JObj [])) ;;
     if negb (ok response) then
       console_error ("检查状态失败: HTTP "
                      ++ number_to_string (status response)) ;;
       ret None
     else
       v <- response_json response ;;
       ret (Some v))
    (fun error =>
       console_error ("检查状态异常: " ++ error_to_string error) ;;
       ret None).

Definition disableHardLimit (cookie : option JsonValue) : M bool :=
  let url := SET_HARD_LIMIT_URL in
  try_catch
    (header <- eval (template cookie) ;;
     response <- fetch dashboard_set_hard_limit url
                   (dashboard_request header DISABLE_HARD_LIMIT_BODY) ;;
     if negb (ok response) then
       console_error ("关闭按量付费失败: HTTP "
                      ++ number_to_string (status response)) ;;
       ret false
     else
       console_log "按量付费已关闭" ;;
       ret true)
    (fun error =>
       console_error ("关闭按量付费异常: " ++ error_to_string error) ;;
       ret false).

(** Every [`${account.email}`] of the function gives the text, or throws
    the error, of the first one, which comes before anything else. *)
Definition processAccount (account : JsonValue) (webhookKey : option string)
    : M unit :=
  email <- eval (email_text account) ;;
  console_log ("检查账号: " ++ email) ;;
  cookie <- eval (get_property account prop_cookie) ;;
  status <- checkHardLimit cookie ;;
  match status with
  | None =>
      console_error ("账号 " ++ email ++ " 检查失败，可能 Cookie 已过期") ;;
      sendWeChatNotification webhookKey (MSG_CHECK_FAILED email) ;;
      ret tt
  | Some status =>
      if is_true (noUsageBasedAllowed status) then
        console_log ("账号 " ++ email ++ " 按量付费未开启，状态正常") ;;
        ret tt
      else
        match positive_limit (hardLimit status) with
        | Some limit =>
            console_warn ("账号 " ++ email ++ " 按量付费已开启 (限额: $"
                          ++ number_to_string limit ++ ")，正在关闭...") ;;
            success <- disableHardLimit cookie ;;
            (if success : bool then
               sendWeChatNotification webhookKey (MSG_DISABLED email limit)
             else
               sendWeChatNotification webhookKey (MSG_DISABLE_FAILED email)) ;;
            ret tt
        | None =>
            console_log ("账号 " ++ email ++ " 状态正常")
        end
  end.

(** The [catch] block of the run loop. *)
Definition on_account_error (webhookKey : option string)
    (account : JsonValue) (error : JsError) : M unit :=
  email <- eval (email_text account) ;;
  console_error ("处理账号 " ++ email ++ " 时发生错误: "
                 ++ error_to_string error) ;;
  sendWeChatNotification webhookKey (MSG_ACCOUNT_ERROR email) ;;
  ret tt.

Section RunController.

(** [JSON.parse(accountsJson)]: it throws or gives a value; the cast [as
    Account[]] is no check. *)
Variable JSON_parse : string -> JsError + JsonValue.

(** The per-account step the loop guards, [processAccount] in the
    worker. *)
Variable process : JsonValue -> option string -> M unit.

(** [for (const account of accounts) { try {...} catch (error) {...} }] *)
Fixpoint for_each_item (webhookKey : option string)
    (items : list JsonValue) : M unit :=
  match items with
  | [] => ret tt
  | item :: rest =>
      try_catch
        (process item webhookKey)
        (on_account_error webhookKey item) ;;
      for_each_item webhookKey rest
  end.

Definition handleScheduled_with (env : Env) : M unit :=
  console_log "=== Cursor 按量付费监控任务开始 ===" ;;
  now <- Date_now_iso ;;
  console_log ("执行时间: " ++ now) ;;
  let accountsJson := CURSOR_KV env "cursor_accounts" in
  match truthy accountsJson with
  | None =>
      console_error "未找到账号配置，请在 KV 中添加 cursor_accounts" ;;
      sendWeChatNotification (WECHAT_WEBHOOK_KEY env) MSG_CONFIG_MISSING ;;
      ret tt
  | Some accountsJson =>
      match JSON_parse accountsJson with
      | inl error =>
          console_error ("解析账号配置失败: " ++ error_to_string error) ;;
          sendWeChatNotification (WECHAT_WEBHOOK_KEY env)
            MSG_CONFIG_MALFORMED ;;
          ret tt
      | inr accounts =>
          length <- eval (get_property accounts prop_length) ;;
          if is_zero length then
            console_log "账号列表为空"
          else
            count <- eval (template length) ;;
            console_log ("共有 " ++ count ++ " 个账号需要检查") ;;
            items <- eval (iterate accounts) ;;
            for_each_item (WECHAT_WEBHOOK_KEY env) items ;;
            console_log "=== Cursor 按量付费监控任务完成 ==="
      end
  end.

End RunController.

Definition handleScheduled (JSON_parse : string -> JsError + JsonValue)
    (env : Env) : M unit :=
  handleScheduled_with JSON_parse processAccount env.

End Unchecked.

(** The parsed value of a list of accounts. *)
Definition account_value (a : Account) : JsonValue :=
  JObj [("email", JStr (email a)); ("cookie", JStr (cookie a))].

Definition accounts_value (l : list Account) : JsonValue :=
  JArr (map account_value l).

(** The parse of a text that is a list of accounts or does not parse. *)
Definition unchecked (parse : string -> JsError + list Account)
    (text : string) : JsError + JsonValue :=
  match parse text with
  | inl error => inl error
  | inr accounts => inr (accounts_value accounts)
  end.

(** A parsed value as a list of accounts, when it is one: an array of
    objects whose [email] and [cookie] are strings. *)
Definition account_of_value (v : JsonValue) : option Account :=
  match v with
  | JObj fields =>
      match lookup "email" fields, lookup "cookie" fields with
      | Some (JStr e), Some (JStr c) => Some {| email := e; cookie := c |}
      | _, _ => None
      end
  | _ => None
  end.

Fixpoint accounts_of_values (items : list JsonValue)
    : option (list Account) :=
  match items with
  | [] => Some []
  | item :: rest =>
      match account_of_value item, accounts_of_values rest with
      | Some a, Some l => Some (a :: l)
      | _, _ => None
      end
  end.

Definition as_account_list (v : JsonValue) : option (list Account) :=
  match v with
  | JArr items => accounts_of_values items
  | _ => None
  end.

(** An item whose [email] has no text: [null], or an item whose [email]
    is an object, or an array holding one, with a member [toString]. *)
Definition item_breaks (item : JsonValue) : bool :=
  match email_text item with
  | inl _ => true
  | inr _ => false
  end.

(** The parsed values on which the worker's run throws: [null], whose
    length cannot be read; what is neither empty nor iterable; an array
    with an item whose [email] has no text. *)
Definition breaks_run (v : JsonValue) : bool :=
  match v with
  | JNull => true
  | JBool _ | JNum _ => true
  | JStr _ => false
  | JArr items => existsb item_breaks items
  | JObj fields => negb (is_zero (lookup "length" fields))
  end.

(** The stored entry is there and parses to such a value. *)
Definition stored_value_breaks (parse : string -> JsError + JsonValue)
    (env : Env) : bool :=
  match truthy (CURSOR_KV env "cursor_accounts") with
  | Some accountsJson =>
      match parse accountsJson with
      | inr v => breaks_run v
      | inl _ => false
      end
  | None => false
  end.

(** ** Observing a run *)

(** [starts_with p s]: [p] is a prefix of [s]. *)
Fixpoint starts_with (p s : string) : bool :=
  match p, s with
  | EmptyString, _ => true
  | String a p', String b s' => Ascii.eqb a b && starts_with p' s'
  | String _ _, EmptyString => false
  end.

(** [contains part s]: [part] occurs in [s]. *)
Fixpoint contains (part s : string) : bool :=
  starts_with part s ||
  match s with
  | EmptyString => false
  | String _ s' => contains part s'
  end.

Definition is_fetch (e : Event) : bool :=
  match e with
  | Fetch _ _ => true
  | Console _ _ => false
  end.

Definition is_status_call (e : Event) : bool :=
  match e with
  | Fetch url _ => (url =? GET_HARD_LIMIT_URL)%string
  | Console _ _ => false
  end.

Definition is_disable_call (e : Event) : bool :=
  match e with
  | Fetch url _ => (url =? SET_HARD_LIMIT_URL)%string
  | Console _ _ => false
  end.

Definition is_dashboard_call (e : Event) : bool :=
  is_status_call e || is_disable_call e.

Definition is_webhook_call (e : Event) : bool :=
  match e with
  | Fetch url _ => starts_with (WEBHOOK_URL "") url
  | Console _ _ => false
  end.

Definition is_key_missing_line (e : Event) : bool :=
  match e with
  | Console Error line => (line =? KEY_MISSING)%string
  | _ => false
  end.

(** What one call of the Notifier leaves behind: the request to the
    webhook, or its refusal for want of a key. *)
Definition is_notification (e : Event) : bool :=
  is_webhook_call e || is_key_missing_line e.

Definition notification (webhookKey : option string) (message : string)
    : Event :=
  match truthy webhookKey with
  | None => Console Error KEY_MISSING
  | Some key => Fetch (WEBHOOK_URL key) (text_message message)
  end.

Definition status_call (cookie : string) : Event :=
  Fetch GET_HARD_LIMIT_URL (dashboard_request cookie (JObj [])).

Definition disable_call (cookie : string) : Event :=
  Fetch SET_HARD_LIMIT_URL (dashboard_request cookie DISABLE_HARD_LIMIT_BODY).

Definition outbound_calls (ev : list Event) : list Event :=
  filter is_fetch ev.
Definition status_calls (ev : list Event) : list Event :=
  filter is_status_call ev.
Definition disable_calls (ev : list Event) : list Event :=
  filter is_disable_call ev.
Definition dashboard_calls (ev : list Event) : list Event :=
  filter is_dashboard_call ev.
Definition webhook_calls (ev : list Event) : list Event :=
  filter is_webhook_call ev.
Definition notifications (ev : list Event) : list Event :=
  filter is_notification ev.

(** The next reply of the status endpoint is a failure: no reply, a
    rejection, a status that is not a success, or a body that does not
    parse. *)
Definition status_reply_fails (w : World) : bool :=
  match get_hard_limit w with
  | [] => true
  | Rejected _ :: _ => true
  | Replied r :: _ =>
      negb (ok r) || match json_body r with inl _ => true | inr _ => false end
  end.

(** The webhook accepts the next message: a success status and a body
    whose [errcode] is [0]. *)
Definition webhook_accepts (w : World) : bool :=
  match webhook_send w with
  | Replied r :: _ =>
      ok r && match json_body r with
              | inr v => errcode v =? 0
              | inl _ => false
              end
  | _ => false
  end.

(** The disable endpoint answers the next request with a success status. *)
Definition disable_accepted (w : World) : bool :=
  match set_hard_limit w with
  | Replied r :: _ => ok r
  | _ => false
  end.

(** Two worlds whose dashboard answers the same. *)
Definition same_dashboard (w w' : World) : Prop :=
  get_hard_limit w = get_hard_limit w' /\
  set_hard_limit w = set_hard_limit w'.

(** [answering code st w]: [w], with the status endpoint answering [st]
    first, under the success status [code]. *)
Definition answering (code : Z) (st : GetHardLimitResponse) (w : World)
    : World :=
  {| clock := clock w;
     get_hard_limit :=
       Replied {| ok := true; status := code; json_body := inr st |}
         :: get_hard_limit w;
     set_hard_limit := set_hard_limit w;
     webhook_send := webhook_send w |}.

(** The limit the decision acts on: the status is there, does not carry
    the disallowed flag, and has a limit above zero. *)
Definition detected_limit (st : option GetHardLimitResponse)
    : option number :=
  match st with
  | Some s =>
      if is_true (noUsageBasedAllowed s) then None
      else positive_limit (hardLimit s)
  | None => None
  end.

(** The lines every run starts with. *)
Definition run_header (w : World) : list Event :=
  [ Console Log "=== Cursor 按量付费监控任务开始 ===";
    Console Log ("执行时间: " ++ clock w) ].

(** ** Sample inputs *)

Definition alice : Account := {| email := "a@x.com"; cookie := "c1" |}.
Definition bob : Account := {| email := "b@x.com"; cookie := "c2" |}.
Definition carol : Account := {| email := "c@x.com"; cookie := "c3" |}.

Definition limit_50 : GetHardLimitResponse :=
  {| noUsageBasedAllowed := None; hardLimit := Some 50 |}.

Definition disallowed_with_limit : GetHardLimitResponse :=
  {| noUsageBasedAllowed := Some true; hardLimit := Some 50 |}.

Definition answers (st : GetHardLimitResponse) : Reply GetHardLimitResponse :=
  Replied {| ok := true; status := 200; json_body := inr st |}.

Definition unauthorized : Reply GetHardLimitResponse :=
  Replied {| ok := false; status := 401; json_body := inr limit_50 |}.

Definition disabled_ok : Reply unit :=
  Replied {| ok := true; status := 200; json_body := inr tt |}.

Definition disable_refused : Reply unit :=
  Replied {| ok := false; status := 500; json_body := inr tt |}.

Definition delivered : Reply WeChatResult :=
  Replied {| ok := true; status := 200;
             json_body := inr {| errcode := 0; errmsg := "ok" |} |}.

Definition world_of (statuses : list (Reply GetHardLimitResponse))
    (disables : list (Reply unit)) (webhook : list (Reply WeChatResult))
    : World :=
  {| clock := "2026-01-01T00:00:00.000Z";
     get_hard_limit := statuses;
     set_hard_limit := disables;
     webhook_send := webhook |}.

(** The limit is on and the disable call goes through. *)
Definition world_limit_on : World :=
  world_of [answers limit_50] [disabled_ok] [delivered].

(** The limit is on and the disable call is refused. *)
Definition world_disable_refused : World :=
  world_of [answers limit_50] [disable_refused] [delivered].

(** The flag says disallowed although a limit is shown. *)
Definition world_disallowed : World :=
  world_of [answers disallowed_with_limit] [disabled_ok] [delivered].

(** The credential is no longer accepted. *)
Definition world_expired : World :=
  world_of [unauthorized] [disabled_ok] [delivered].

(** Three accounts, the limit on for each. *)
Definition world_three : World :=
  world_of [answers limit_50; answers limit_50; answers limit_50]
           [disabled_ok; disabled_ok; disabled_ok]
           [delivered; delivered; delivered; delivered].

(** The same dashboard, a webhook that is down. *)
Definition world_three_silent : World :=
  world_of [answers limit_50; answers limit_50; answers limit_50]
           [disabled_ok; disabled_ok; disabled_ok]
           [].

(** A stand-in for [JSON.parse] on the stored values of the examples:
    the listed texts parse to their lists, any other text throws. *)
Definition parse_by_table (table : list (string * list Account))
    (text : string) : JsError + list Account :=
  match find (fun entry => (fst entry =? text)%string) table with
  | Some entry => inr (snd entry)
  | None => inl {| name := "SyntaxError"; message := "Unexpected token" |}
  end.

(** The JSON text of a list of accounts, as it is stored. *)
Definition quoted (s : string) : string :=
  String (ascii_of_nat 34) s ++ String (ascii_of_nat 34) "".

Definition account_text (a : Account) : string :=
  "{" ++ quoted "email" ++ ":" ++ quoted (email a) ++ ","
      ++ quoted "cookie" ++ ":" ++ quoted (cookie a) ++ "}".

Definition accounts_text (l : list Account) : string :=
  "[" ++ String.concat "," (map account_text l) ++ "]".

Definition sample_parse : string -> JsError + list Account :=
  parse_by_table [ (accounts_text [alice; bob; carol], [alice; bob; carol]);
                   (accounts_text [alice], [alice]);
                   (accounts_text [], []) ].

(** A stand-in for [JSON.parse] as it is, with no check of the shape: the
    texts of four values that are no list of accounts, and the texts
    [sample_parse] knows. *)
Definition sample_parse_value (text : string) : JsError + JsonValue :=
  if (text =? "null")%string then inr JNull
  else if (text =? "{}")%string then inr (JObj [])
  else if (text =? "[null]")%string then inr (JArr [JNull])
  else if (text =? "42")%string then inr (JNum 42)
  else unchecked sample_parse text.

Definition env_with (stored : option string) (key : option string) : Env :=
  {| CURSOR_KV := fun k =>
       if (k =? "cursor_accounts")%string then stored else None;
     WECHAT_WEBHOOK_KEY := key |}.

(** A per-account step that throws on the account named [bad], and is
    [processAccount] on the others. *)
Definition step_failing_on (bad : string) (account : Account)
    (webhookKey : option string) : M unit :=
  if (email account =? bad)%string then
    throw {| name := "Error"; message := "unexpected" |}
  else
    processAccount account webhookKey.

(** ** Further observations *)

(** The events that are no dashboard call: the console lines and the
    requests to the webhook. *)
Definition off_dashboard (ev : list Event) : list Event :=
  filter (fun e => negb (is_dashboard_call e)) ev.

(** The dashboard calls one account gets: its status check, and the
    disable call when [disabled]. *)
Definition account_calls (a : Account) (disabled : bool) : list Event :=
  status_call (cookie a) ::
  if disabled then [disable_call (cookie a)] else [].

(** [ev] is what processing [a] emits from some world. *)
Definition account_run (key : option string) (a : Account)
    (ev : list Event) : Prop :=
  exists w0 w1, processAccount a key w0 = (Ok tt, w1, ev).

(** The first account, with another cookie. *)
Definition alice_renewed : Account :=
  {| email := "a@x.com"; cookie := "c9" |}.

Definition check_request : Request :=
  {| request_method := "POST"; pathname := "/check"; search := "" |}.

(** * Properties *)

Ltac leaf :=
  cbn; repeat split; try reflexivity; try congruence.

Ltac observe :=
  unfold status_calls, disable_calls, dashboard_calls, notifications,
    outbound_calls in *;
  repeat (cbn; rewrite ?filter_app);
  repeat match goal with
         | H : filter ?p ?ev = _ |- context [filter ?p ?ev] => rewrite H
         end;
  cbn; try reflexivity.

Ltac survey :=
  unfold status_calls, disable_calls, dashboard_calls, notifications,
    outbound_calls, webhook_calls, off_dashboard in *;
  repeat (cbn; rewrite ?filter_app);
  repeat match goal with
         | H : filter ?p ?ev = _ |- context [filter ?p ?ev] => rewrite H
         end;
  cbn; try reflexivity.

(** ** Running the monad *)

Lemma run_of {A} (m : M A) w :
  m w = (outcome m w, world_after m w, events m w).
Proof.
  unfold outcome, world_after, events.
  destruct (m w) as [[r w'] ev]. reflexivity.
Qed.

Lemma bind_ok {A B} (m : M A) (k : A -> M B) w a w1 ev1 r w2 ev2 :
  m w = (Ok a, w1, ev1) ->
  k a w1 = (r, w2, ev2) ->
  bind m k w = (r, w2, (ev1 ++ ev2)%list).
Proof.
  intros Hm Hk. unfold bind. rewrite Hm, Hk. reflexivity.
Qed.

Lemma bind_assoc {A B C} (m : M A) (k : A -> M B) (h : B -> M C) w :
  bind (bind m k) h w = bind m (fun x => bind (k x) h) w.
Proof.
  unfold bind.
  destruct (m w) as [[[a|e] w1] ev1]; [|reflexivity].
  destruct (k a w1) as [[[b|e] w2] ev2]; [|reflexivity].
  destruct (h b w2) as [[r w3] ev3].
  rewrite app_assoc. reflexivity.
Qed.

Lemma same_dashboard_sym w w' : same_dashboard w w' -> same_dashboard w' w.
Proof. intros [H1 H2]. split; congruence. Qed.

Lemma same_dashboard_trans w1 w2 w3 :
  same_dashboard w1 w2 -> same_dashboard w2 w3 -> same_dashboard w1 w3.
Proof. intros [H1 H2] [H3 H4]. split; congruence. Qed.

(** ** Strings *)

Lemma append_assoc (a b c : string) : (a ++ b) ++ c = a ++ b ++ c.
Proof. induction a as [|x a IH]; cbn; [reflexivity | now rewrite IH]. Qed.

Lemma append_cancel_l (p a b : string) : p ++ a = p ++ b -> a = b.
Proof.
  induction p as [|x p IH]; cbn; intros H; [exact H|].
  injection H as H. exact (IH H).
Qed.

Lemma starts_with_app p s : starts_with p (p ++ s) = true.
Proof.
  induction p as [|a p IH]; cbn.
  - reflexivity.
  - rewrite Ascii.eqb_refl, IH. reflexivity.
Qed.

Lemma contains_app part pre post : contains part (pre ++ part ++ post) = true.
Proof.
  induction pre as [|a pre IH].
  - cbn [append]. destruct (part ++ post) eqn:E; cbn [contains];
      rewrite <- E, starts_with_app; reflexivity.
  - cbn [append contains]. rewrite IH. apply orb_true_r.
Qed.

Lemma truthy_missing (v : option string) :
  v = None \/ v = Some "" -> truthy v = None.
Proof. intros [-> | ->]; reflexivity. Qed.

Lemma truthy_present (s : string) : s <> "" -> truthy (Some s) = Some s.
Proof.
  intros H. unfold truthy.
  destruct (String.eqb_spec s ""); [contradiction | reflexivity].
Qed.

Lemma truthy_Some_inv v s : truthy v = Some s -> v = Some s /\ s <> "".
Proof.
  unfold truthy. destruct v as [x|]; [|discriminate].
  destruct (String.eqb_spec x ""); [discriminate|].
  intros H. injection H as <-. auto.
Qed.

(** ** Wording of the notifications *)

Lemma MSG_DISABLED_mentions_limit email limit :
  contains (number_to_string limit) (MSG_DISABLED email limit) = true.
Proof.
  unfold MSG_DISABLED.
  rewrite <- (append_assoc email), <- (append_assoc "账号 ").
  apply contains_app.
Qed.

Lemma MSG_DISABLED_differs email limit :
  MSG_DISABLED email limit <> MSG_DISABLE_FAILED email.
Proof.
  unfold MSG_DISABLED, MSG_DISABLE_FAILED. intros H.
  apply append_cancel_l, append_cancel_l in H. cbn in H. discriminate H.
Qed.

Lemma MSG_CHECK_FAILED_wording email :
  contains email (MSG_CHECK_FAILED email) = true /\
  contains "可能 Cookie 已过期" (MSG_CHECK_FAILED email) = true.
Proof.
  unfold MSG_CHECK_FAILED. split.
  - apply contains_app.
  - change (" 检查失败，可能 Cookie 已过期，请更新 Cookie")
      with (" 检查失败，" ++ "可能 Cookie 已过期" ++ "，请更新 Cookie").
    rewrite <- (append_assoc email), <- (append_assoc "账号 ").
    apply contains_app.
Qed.

Lemma detected_limit_Some st limit :
  noUsageBasedAllowed st = None \/ noUsageBasedAllowed st = Some false ->
  hardLimit st = Some limit -> 0 < limit ->
  detected_limit (Some st) = Some limit.
Proof.
  intros Hf Hl Hpos. unfold detected_limit, positive_limit.
  rewrite Hl. destruct Hf as [-> | ->]; cbn;
  destruct (Z.gtb_spec limit 0); (reflexivity || lia).
Qed.

Lemma detected_limit_None st :
  noUsageBasedAllowed st = Some true \/ hardLimit st = Some 0 ->
  detected_limit (Some st) = None.
Proof.
  intros [H | H]; unfold detected_limit, positive_limit; rewrite H.
  - reflexivity.
  - destruct (is_true (noUsageBasedAllowed st)); reflexivity.
Qed.

(** ** The leaves *)

(** The Notifier returns, leaves exactly one notification behind, leaves the
    dashboard alone, and tells whether the webhook took the message. *)
Lemma sendWeChatNotification_run key msg w :
  exists b w' ev,
    sendWeChatNotification key msg w = (Ok b, w', ev) /\
    notifications ev = [notification key msg] /\
    status_calls ev = [] /\
    disable_calls ev = [] /\
    dashboard_calls ev = [] /\
    same_dashboard w w' /\
    b = match truthy key with
        | None => false
        | Some _ => webhook_accepts w
        end.
Proof.
  unfold sendWeChatNotification, notification, webhook_accepts.
  destruct (truthy key) as [k|].
  - unfold try_catch, bind, fetch. cbn [script wechat_webhook advance].
    destruct (webhook_send w) as [|[e|[o s [e|v]]] tl].
    + do 3 eexists. leaf.
    + do 3 eexists. leaf.
    + destruct o; do 3 eexists; leaf.
    + destruct o; [destruct (errcode v =? 0) eqn:E|];
        do 3 eexists; cbn; rewrite ?E; leaf.
  - do 3 eexists. leaf.
Qed.

(** One notification is one request to the webhook, carrying the message,
    when the key is set, and none when it is missing or empty. *)
Lemma notification_reaches_webhook ev key msg :
  notifications ev = [notification key msg] ->
  webhook_calls ev =
    match truthy key with
    | Some k => [Fetch (WEBHOOK_URL k) (text_message msg)]
    | None => []
    end.
Proof.
  assert (Hsub : webhook_calls ev = webhook_calls (notifications ev)).
  { unfold webhook_calls, notifications.
    induction ev as [|e ev IH]; [reflexivity|].
    cbn [filter]. unfold is_notification at 1.
    destruct (is_webhook_call e) eqn:E; cbn [orb].
    - cbn [filter]. rewrite E, IH. reflexivity.
    - destruct (is_key_missing_line e); cbn [filter]; rewrite ?E; exact IH. }
  intros H. rewrite Hsub, H. unfold notification, webhook_calls.
  destruct (truthy key) as [k|]; [|reflexivity].
  reflexivity.
Qed.

(** The StatusChecker returns, makes its one request, and gives the
    failure marker exactly when the reply is a failure. *)
Lemma checkHardLimit_run cookie w :
  exists st w' ev,
    checkHardLimit cookie w = (Ok st, w', ev) /\
    status_calls ev = [status_call cookie] /\
    disable_calls ev = [] /\
    dashboard_calls ev = [status_call cookie] /\
    notifications ev = [] /\
    (st = None <-> status_reply_fails w = true) /\
    set_hard_limit w' = set_hard_limit w /\
    webhook_send w' = webhook_send w /\
    clock w' = clock w.
Proof.
  unfold checkHardLimit, status_reply_fails, try_catch, bind, fetch.
  cbn [script dashboard_get_hard_limit advance].
  destruct (get_hard_limit w) as [|[e|[o s [e|v]]] tl].
  - do 3 eexists. leaf.
  - do 3 eexists. leaf.
  - destruct o; do 3 eexists; leaf.
  - destruct o; do 3 eexists; leaf.
Qed.

(** What the StatusChecker does depends on the dashboard only. *)
Lemma checkHardLimit_same cookie w1 w2 :
  same_dashboard w1 w2 ->
  outcome (checkHardLimit cookie) w1 = outcome (checkHardLimit cookie) w2 /\
  events (checkHardLimit cookie) w1 = events (checkHardLimit cookie) w2 /\
  same_dashboard (world_after (checkHardLimit cookie) w1)
                 (world_after (checkHardLimit cookie) w2).
Proof.
  intros [H1 H2].
  unfold outcome, events, world_after, same_dashboard.
  unfold checkHardLimit, try_catch, bind, fetch.
  cbn [script dashboard_get_hard_limit advance].
  rewrite <- H1.
  destruct (get_hard_limit w1) as [|[e|[o s [e|v]]] tl] eqn:E;
    try destruct o; cbn; repeat split; congruence.
Qed.

(** The LimitDisabler returns, makes its one request, and says whether the
    endpoint answered with a success status. *)
Lemma disableHardLimit_run cookie w :
  exists w' ev,
    disableHardLimit cookie w = (Ok (disable_accepted w), w', ev) /\
    disable_calls ev = [disable_call cookie] /\
    status_calls ev = [] /\
    dashboard_calls ev = [disable_call cookie] /\
    notifications ev = [] /\
    get_hard_limit w' = get_hard_limit w /\
    webhook_send w' = webhook_send w /\
    clock w' = clock w.
Proof.
  unfold disableHardLimit, disable_accepted, try_catch, bind, fetch.
  cbn [script dashboard_set_hard_limit advance].
  destruct (set_hard_limit w) as [|[e|[o s b]] tl].
  - do 2 eexists. leaf.
  - do 2 eexists. leaf.
  - destruct o; do 2 eexists; leaf.
Qed.

Lemma disableHardLimit_same cookie w1 w2 :
  same_dashboard w1 w2 ->
  outcome (disableHardLimit cookie) w1 = outcome (disableHardLimit cookie) w2 /\
  events (disableHardLimit cookie) w1 = events (disableHardLimit cookie) w2 /\
  same_dashboard (world_after (disableHardLimit cookie) w1)
                 (world_after (disableHardLimit cookie) w2).
Proof.
  intros [H1 H2].
  unfold outcome, events, world_after, same_dashboard.
  unfold disableHardLimit, try_catch, bind, fetch.
  cbn [script dashboard_set_hard_limit advance].
  rewrite <- H2.
  destruct (set_hard_limit w1) as [|[e|[o s b]] tl] eqn:E;
    try destruct o; cbn; repeat split; congruence.
Qed.

(** ** The per-account decision *)

(** One account, from the status the check returned: the calls made, the
    notification left, and the dashboard afterwards. *)
Lemma processAccount_run a key w st w1 ev1 :
  checkHardLimit (cookie a) w = (Ok st, w1, ev1) ->
  exists w' ev,
    processAccount a key w = (Ok tt, w', ev) /\
    status_calls ev = [status_call (cookie a)] /\
    disable_calls ev =
      match detected_limit st with
      | Some _ => [disable_call (cookie a)]
      | None => []
      end /\
    dashboard_calls ev =
      status_call (cookie a) ::
      match detected_limit st with
      | Some _ => [disable_call (cookie a)]
      | None => []
      end /\
    notifications ev =
      match st, detected_limit st with
      | None, _ => [notification key (MSG_CHECK_FAILED (email a))]
      | Some _, Some limit =>
          [notification key
             (if disable_accepted w1 then MSG_DISABLED (email a) limit
              else MSG_DISABLE_FAILED (email a))]
      | Some _, None => []
      end /\
    same_dashboard w'
      match detected_limit st with
      | Some _ => world_after (disableHardLimit (cookie a)) w1
      | None => w1
      end.
Proof.
  intros Hc.
  destruct (checkHardLimit_run (cookie a) w)
    as (st' & w1' & ev1' & Hc' & Hs1 & Hd1 & Hb1 & Hn1 & _).
  rewrite Hc in Hc'. injection Hc' as <- <- <-.
  unfold processAccount.
  unfold bind at 1. cbn [console_log emit].
  unfold bind at 1. rewrite Hc.
  destruct st as [s|]; cbn [detected_limit].
  - destruct (is_true (noUsageBasedAllowed s)).
    + cbn. do 2 eexists. split; [reflexivity|].
      repeat split; observe.
    + destruct (positive_limit (hardLimit s)) as [limit|].
      * destruct (disableHardLimit_run (cookie a) w1)
          as (w2 & ev2 & Hd & Hd2 & Hs2 & Hb2 & Hn2 & _).
        unfold world_after. rewrite Hd. cbn [fst snd].
        unfold bind at 1. cbn [console_warn emit].
        unfold bind at 1. rewrite Hd.
        set (msg := if disable_accepted w1 then MSG_DISABLED (email a) limit
                    else MSG_DISABLE_FAILED (email a)).
        destruct (sendWeChatNotification_run key msg w2)
          as (b & w3 & ev3 & Hn & Hn3 & Hs3 & Hd3 & Hb3 & Hsame & _).
        unfold bind at 1.
        replace (if disable_accepted w1
                 then sendWeChatNotification key (MSG_DISABLED (email a) limit)
                 else sendWeChatNotification key (MSG_DISABLE_FAILED (email a)))
          with (sendWeChatNotification key msg)
          by (unfold msg; destruct (disable_accepted w1); reflexivity).
        rewrite Hn. cbn [ret].
        do 2 eexists. split; [reflexivity|].
        repeat split; try observe; symmetry; apply Hsame.
      * cbn. do 2 eexists. split; [reflexivity|].
        repeat split; observe.
  - unfold bind at 1. cbn [console_error emit].
    destruct (sendWeChatNotification_run key (MSG_CHECK_FAILED (email a)) w1)
      as (b & w3 & ev3 & Hn & Hn3 & Hs3 & Hd3 & Hb3 & Hsame & _).
    unfold bind at 1. rewrite Hn. cbn [ret].
    do 2 eexists. split; [reflexivity|].
    repeat split; try observe; symmetry; apply Hsame.
Qed.

(** The per-account step never throws. *)
Lemma processAccount_returns a key w :
  exists w' ev, processAccount a key w = (Ok tt, w', ev).
Proof.
  destruct (checkHardLimit_run (cookie a) w) as (st & w1 & ev1 & Hc & _).
  destruct (processAccount_run a key w st w1 ev1 Hc) as (w' & ev & Hp & _).
  eauto.
Qed.

(** One account under two keys, from worlds whose dashboard answers the
    same: the same dashboard calls, and the dashboard is left the same. *)
Lemma processAccount_same a k1 k2 w1 w2 :
  same_dashboard w1 w2 ->
  exists w1' ev1 w2' ev2,
    processAccount a k1 w1 = (Ok tt, w1', ev1) /\
    processAccount a k2 w2 = (Ok tt, w2', ev2) /\
    dashboard_calls ev1 = dashboard_calls ev2 /\
    same_dashboard w1' w2'.
Proof.
  intros Hsame.
  destruct (checkHardLimit_same (cookie a) w1 w2 Hsame) as (Ho & _ & Hw).
  pose proof (run_of (checkHardLimit (cookie a)) w1) as Hc1.
  pose proof (run_of (checkHardLimit (cookie a)) w2) as Hc2.
  destruct (checkHardLimit_run (cookie a) w1) as (st & u1 & e1 & Hr1 & _).
  assert (Ho1 : outcome (checkHardLimit (cookie a)) w1 = Ok st)
    by (unfold outcome; rewrite Hr1; reflexivity).
  rewrite Ho1 in Hc1. rewrite <- Ho, Ho1 in Hc2.
  destruct (processAccount_run a k1 w1 _ _ _ Hc1)
    as (w1' & ev1 & Hp1 & _ & _ & Hb1 & _ & Hs1).
  destruct (processAccount_run a k2 w2 _ _ _ Hc2)
    as (w2' & ev2 & Hp2 & _ & _ & Hb2 & _ & Hs2).
  exists w1', ev1, w2', ev2.
  split; [exact Hp1|]. split; [exact Hp2|]. split; [congruence|].
  apply same_dashboard_trans with (1 := Hs1).
  apply same_dashboard_sym in Hs2.
  destruct (detected_limit st).
  - destruct (disableHardLimit_same (cookie a) _ _ Hw) as (_ & _ & Hw').
    exact (same_dashboard_trans _ _ _ Hw' Hs2).
  - exact (same_dashboard_trans _ _ _ Hw Hs2).
Qed.

(** ** The run loop *)

Section Loop.

Variable process : Account -> option string -> M unit.

(** The [catch] block returns after one notification, naming the account,
    and leaves the dashboard alone. *)
Lemma on_account_error_run key a e w :
  exists w' ev,
    on_account_error key a e w = (Ok tt, w', ev) /\
    notifications ev = [notification key (MSG_ACCOUNT_ERROR (email a))] /\
    dashboard_calls ev = [] /\
    same_dashboard w w'.
Proof.
  unfold on_account_error.
  destruct (sendWeChatNotification_run key (MSG_ACCOUNT_ERROR (email a)) w)
    as (b & w' & ev & Hn & Hn1 & _ & _ & Hb & Hsame & _).
  unfold bind at 1. cbn [console_error emit].
  unfold bind at 1. rewrite Hn. cbn [ret].
  do 2 eexists. split; [reflexivity|].
  repeat split; try observe; apply Hsame.
Qed.

Lemma for_each_account_cons key a rest :
  for_each_account process key (a :: rest) =
  (try_catch (process a key) (on_account_error key a) ;;
   for_each_account process key rest).
Proof. reflexivity. Qed.

(** A guarded step returns, whatever the step does. *)
Lemma guarded_step_returns key a w :
  exists w' ev,
    try_catch (process a key) (on_account_error key a) w = (Ok tt, w', ev).
Proof.
  unfold try_catch.
  destruct (process a key w) as [[[[]|e] w1] ev1].
  - do 2 eexists. reflexivity.
  - destruct (on_account_error_run key a e w1) as (w' & ev & H & _).
    rewrite H. do 2 eexists. reflexivity.
Qed.

(** So does the loop. *)
Lemma for_each_account_returns key accounts : forall w,
  exists w' ev, for_each_account process key accounts w = (Ok tt, w', ev).
Proof.
  induction accounts as [|a rest IH]; intros w.
  - do 2 eexists. reflexivity.
  - rewrite for_each_account_cons.
    destruct (guarded_step_returns key a w) as (w1 & ev1 & H1).
    destruct (IH w1) as (w2 & ev2 & H2).
    exists w2, (ev1 ++ ev2)%list. apply (bind_ok _ _ _ _ _ _ _ _ _ H1 H2).
Qed.

(** The loop over a list in two parts is the loop over the first part,
    then the loop over the second. *)
Lemma for_each_account_app key l1 l2 : forall w,
  for_each_account process key (l1 ++ l2)%list w =
  (for_each_account process key l1 ;; for_each_account process key l2) w.
Proof.
  induction l1 as [|a l1 IH]; intros w.
  - cbn [app for_each_account]. unfold bind, ret.
    destruct (for_each_account process key l2 w) as [[r w'] ev]. reflexivity.
  - cbn [app]. rewrite !for_each_account_cons, bind_assoc.
    unfold bind at 1 2.
    destruct (try_catch (process a key) (on_account_error key a) w)
      as [[[[]|e] w1] ev1]; [|reflexivity].
    rewrite IH. reflexivity.
Qed.

End Loop.

Lemma dashboard_calls_app ev1 ev2 :
  dashboard_calls (ev1 ++ ev2)
  = (dashboard_calls ev1 ++ dashboard_calls ev2)%list.
Proof. apply filter_app. Qed.

(** The loop under two keys, from worlds whose dashboard answers the
    same. *)
Lemma for_each_account_same accounts : forall k1 k2 w1 w2,
  same_dashboard w1 w2 ->
  exists w1' ev1 w2' ev2,
    for_each_account processAccount k1 accounts w1 = (Ok tt, w1', ev1) /\
    for_each_account processAccount k2 accounts w2 = (Ok tt, w2', ev2) /\
    dashboard_calls ev1 = dashboard_calls ev2 /\
    same_dashboard w1' w2'.
Proof.
  induction accounts as [|a rest IH]; intros k1 k2 w1 w2 Hsame.
  - exists w1, [], w2, []. repeat split; apply Hsame.
  - destruct (processAccount_same a k1 k2 w1 w2 Hsame)
      as (u1 & e1 & u2 & e2 & Hp1 & Hp2 & Hcalls & Hu).
    destruct (IH k1 k2 u1 u2 Hu)
      as (v1 & f1 & v2 & f2 & Hl1 & Hl2 & Hcalls' & Hv).
    exists v1, (e1 ++ f1)%list, v2, (e2 ++ f2)%list.
    rewrite !for_each_account_cons, !dashboard_calls_app.
    repeat split; try apply Hv; try congruence.
    + apply bind_ok with (a := tt) (w1 := u1); [|exact Hl1].
      unfold try_catch. rewrite Hp1. reflexivity.
    + apply bind_ok with (a := tt) (w1 := u2); [|exact Hl2].
      unfold try_catch. rewrite Hp2. reflexivity.
Qed.

(** ** The run controller *)

(** A run over a list that is not empty: the header, the count, the loop,
    the closing line. *)
Lemma handleScheduled_with_accounts parse process env w accountsJson
    accounts w' ev :
  CURSOR_KV env "cursor_accounts" = Some accountsJson ->
  accountsJson <> "" ->
  parse accountsJson = inr accounts ->
  accounts <> [] ->
  for_each_account process (WECHAT_WEBHOOK_KEY env) accounts w
    = (Ok tt, w', ev) ->
  handleScheduled_with parse process env w =
  (Ok tt, w',
   (run_header w ++
    Console Log ("共有 " ++ length_to_string accounts ++ " 个账号需要检查") ::
    ev ++ [Console Log "=== Cursor 按量付费监控任务完成 ==="])%list).
Proof.
  intros Hkv Hne Hparse Hnil Hloop.
  unfold handleScheduled_with. cbn zeta.
  rewrite Hkv, (truthy_present _ Hne), Hparse.
  destruct accounts as [|a rest]; [contradiction|].
  cbn [List.length Nat.eqb].
  unfold bind at 1. cbn [console_log emit].
  unfold bind at 1. cbn [Date_now_iso].
  unfold bind at 1. cbn [console_log emit].
  unfold bind at 1. cbn [console_log emit].
  unfold bind at 1. rewrite Hloop. reflexivity.
Qed.

(** A run that stops on a fatal condition: after the header, a diagnostic
    line and one notification, whatever the per-account step is. *)
Lemma run_stops_missing parse env w :
  truthy (CURSOR_KV env "cursor_accounts") = None ->
  exists w' ev,
    (forall process,
       handleScheduled_with parse process env w = (Ok tt, w', ev)) /\
    notifications ev =
      [notification (WECHAT_WEBHOOK_KEY env) MSG_CONFIG_MISSING] /\
    dashboard_calls ev = [] /\
    same_dashboard w w'.
Proof.
  intros Hkv.
  destruct (sendWeChatNotification_run (WECHAT_WEBHOOK_KEY env)
              MSG_CONFIG_MISSING w)
    as (b & w' & evn & Hn & Hn1 & _ & _ & Hb & Hsame & _).
  exists w', (run_header w ++
              Console Error "未找到账号配置，请在 KV 中添加 cursor_accounts"
                :: evn ++ [])%list.
  split; [|repeat split; try observe; apply Hsame].
  intros process. unfold handleScheduled_with. cbn zeta. rewrite Hkv.
  unfold bind at 1. cbn [console_log emit].
  unfold bind at 1. cbn [Date_now_iso].
  unfold bind at 1. cbn [console_log emit].
  unfold bind at 1. cbn [console_error emit].
  unfold bind at 1. rewrite Hn. reflexivity.
Qed.

Lemma run_stops_malformed parse env w accountsJson error :
  truthy (CURSOR_KV env "cursor_accounts") = Some accountsJson ->
  parse accountsJson = inl error ->
  exists w' ev,
    (forall process,
       handleScheduled_with parse process env w = (Ok tt, w', ev)) /\
    notifications ev =
      [notification (WECHAT_WEBHOOK_KEY env) MSG_CONFIG_MALFORMED] /\
    dashboard_calls ev = [] /\
    same_dashboard w w'.
Proof.
  intros Hkv Hparse.
  destruct (sendWeChatNotification_run (WECHAT_WEBHOOK_KEY env)
              MSG_CONFIG_MALFORMED w)
    as (b & w' & evn & Hn & Hn1 & _ & _ & Hb & Hsame & _).
  exists w', (run_header w ++
              Console Error ("解析账号配置失败: " ++ error_to_string error)
                :: evn ++ [])%list.
  split; [|repeat split; try observe; apply Hsame].
  intros process. unfold handleScheduled_with. cbn zeta. rewrite Hkv, Hparse.
  unfold bind at 1. cbn [console_log emit].
  unfold bind at 1. cbn [Date_now_iso].
  unfold bind at 1. cbn [console_log emit].
  unfold bind at 1. cbn [console_error emit].
  unfold bind at 1. rewrite Hn. reflexivity.
Qed.

Lemma run_empty_list parse process env w accountsJson :
  truthy (CURSOR_KV env "cursor_accounts") = Some accountsJson ->
  parse accountsJson = inr [] ->
  handleScheduled_with parse process env w =
  (Ok tt, w, (run_header w ++ [Console Log "账号列表为空"])%list).
Proof.
  intros Hkv Hparse. unfold handleScheduled_with. cbn zeta.
  rewrite Hkv, Hparse. reflexivity.
Qed.

(** ** Absent fields *)

(** A status without the flag and the same status with the flag [false]
    give the same run; so do a status without a limit and the same status
    with the limit zero. *)
Lemma absent_flag_as_false a key w code limit :
  processAccount a key
    (answering code {| noUsageBasedAllowed := None; hardLimit := limit |} w) =
  processAccount a key
    (answering code
       {| noUsageBasedAllowed := Some false; hardLimit := limit |} w).
Proof. reflexivity. Qed.

Lemma absent_limit_as_zero a key w code flag :
  processAccount a key
    (answering code {| noUsageBasedAllowed := flag; hardLimit := None |} w) =
  processAccount a key
    (answering code {| noUsageBasedAllowed := flag; hardLimit := Some 0 |} w).
Proof. destruct flag as [[|]|]; reflexivity. Qed.

(** ** The run on whatever the parse gives *)

Lemma bind_ret {A B} (a : A) (k : A -> M B) w : bind (ret a) k w = k a w.
Proof.
  unfold bind, ret. destruct (k a w) as [[r w'] ev]. reflexivity.
Qed.

Lemma bind_ext {A B} (m : M A) (k k' : A -> M B) w :
  (forall a w1, k a w1 = k' a w1) -> bind m k w = bind m k' w.
Proof.
  intros H. unfold bind.
  destruct (m w) as [[[a|e] w1] ev1]; [|reflexivity].
  rewrite H. reflexivity.
Qed.

Lemma bind_cong {A B} (m m' : M A) (k k' : A -> M B) w :
  m w = m' w -> (forall a w1, k a w1 = k' a w1) -> bind m k w = bind m' k' w.
Proof.
  intros Hm Hk. unfold bind. rewrite Hm.
  destruct (m' w) as [[[a|e] w1] ev1]; [|reflexivity].
  rewrite Hk. reflexivity.
Qed.

Lemma try_catch_ext {A} (m m' : M A) (h : JsError -> M A) w :
  m w = m' w -> try_catch m h w = try_catch m' h w.
Proof. intros H. unfold try_catch. rewrite H. reflexivity. Qed.

(** Every error of a property read or of a template is a [TypeError]. *)
Lemma template_error v e : template v = inl e -> name e = "TypeError".
Proof.
  destruct v as [v|]; cbn; [|discriminate].
  destruct (to_string v); [discriminate|].
  intros H. injection H as <-. reflexivity.
Qed.

Lemma email_text_error item e :
  email_text item = inl e -> name e = "TypeError".
Proof.
  unfold email_text.
  destruct item; cbn [get_property]; try apply template_error.
  intros H. injection H as <-. reflexivity.
Qed.

(** An item whose [email] has a text has a [cookie] to read. *)
Lemma email_text_cookie item e :
  email_text item = inr e ->
  exists c, get_property item prop_cookie = inr c.
Proof.
  destruct item; try (intros _; eexists; reflexivity).
  discriminate.
Qed.

Lemma text_of_account a :
  email_text (account_value a) = inr (email a) /\
  get_property (account_value a) prop_cookie = inr (Some (JStr (cookie a))) /\
  template (Some (JStr (cookie a))) = inr (cookie a).
Proof. destruct a as [e c]. repeat split. Qed.

(** The calls on a cookie that has a text are the calls on the text. *)
Lemma checkHardLimit_text cookie c w :
  template cookie = inr c ->
  Unchecked.checkHardLimit cookie w = checkHardLimit c w.
Proof.
  intros H. unfold Unchecked.checkHardLimit, checkHardLimit. cbn zeta.
  apply try_catch_ext. rewrite H. cbn [eval]. rewrite bind_ret. reflexivity.
Qed.

Lemma disableHardLimit_text cookie c w :
  template cookie = inr c ->
  Unchecked.disableHardLimit cookie w = disableHardLimit c w.
Proof.
  intros H. unfold Unchecked.disableHardLimit, disableHardLimit. cbn zeta.
  apply try_catch_ext. rewrite H. cbn [eval]. rewrite bind_ret. reflexivity.
Qed.

(** On a cookie that has none, no request goes out. *)
Lemma checkHardLimit_no_text cookie e w :
  template cookie = inl e ->
  Unchecked.checkHardLimit cookie w
  = (Ok None, w, [Console Error ("检查状态异常: " ++ error_to_string e)]).
Proof.
  intros H. unfold Unchecked.checkHardLimit. cbn zeta.
  unfold try_catch, bind at 1. rewrite H. reflexivity.
Qed.

Lemma processAccount_text item key e c text w :
  email_text item = inr e ->
  get_property item prop_cookie = inr c ->
  template c = inr text ->
  Unchecked.processAccount item key w
  = processAccount {| email := e; cookie := text |} key w.
Proof.
  intros He Hc Ht. unfold Unchecked.processAccount, processAccount.
  rewrite He, Hc. cbn [eval email cookie]. rewrite bind_ret.
  apply bind_ext. intros _ w1. rewrite bind_ret.
  apply bind_cong; [apply (checkHardLimit_text _ _ _ Ht)|].
  intros [st|] w2; [|reflexivity].
  destruct (is_true (noUsageBasedAllowed st)); [reflexivity|].
  destruct (positive_limit (hardLimit st)) as [limit|]; [|reflexivity].
  apply bind_ext. intros _ w3.
  apply bind_cong; [apply (disableHardLimit_text _ _ _ Ht)|].
  reflexivity.
Qed.

Lemma on_account_error_text key item e c error w :
  email_text item = inr e ->
  Unchecked.on_account_error key item error w
  = on_account_error key {| email := e; cookie := c |} error w.
Proof.
  intros He. unfold Unchecked.on_account_error, on_account_error.
  rewrite He. cbn [eval email]. rewrite bind_ret. reflexivity.
Qed.

Lemma on_item_error_returns key item e error w :
  email_text item = inr e ->
  exists w' ev, Unchecked.on_account_error key item error w = (Ok tt, w', ev).
Proof.
  intros He. rewrite (on_account_error_text key item e "" error w He).
  destruct (on_account_error_run key {| email := e; cookie := "" |} error w)
    as (w' & ev & H & _).
  eauto.
Qed.

(** The worker's step returns on an item whose [email] has a text. *)
Lemma processAccount_on_item_returns item key e w :
  email_text item = inr e ->
  exists w' ev, Unchecked.processAccount item key w = (Ok tt, w', ev).
Proof.
  intros He. destruct (email_text_cookie item e He) as (c & Hc).
  destruct (template c) as [error|text] eqn:Ht.
  - unfold Unchecked.processAccount. rewrite He, Hc. cbn [eval].
    rewrite bind_ret.
    destruct (sendWeChatNotification_run key (MSG_CHECK_FAILED e) w)
      as (b & w' & ev & Hn & _).
    unfold bind at 1. cbn [console_log emit].
    rewrite bind_ret.
    unfold bind at 1. rewrite (checkHardLimit_no_text _ _ _ Ht).
    unfold bind at 1. cbn [console_error emit].
    unfold bind at 1. rewrite Hn. cbn [ret].
    do 2 eexists. reflexivity.
  - rewrite (processAccount_text item key e c text w He Hc Ht).
    apply processAccount_returns.
Qed.

(** On an item whose [email] has none, the step throws at once, and so
    does the [catch] block. *)
Lemma processAccount_on_item_throws item key error w :
  email_text item = inl error ->
  Unchecked.processAccount item key w = (Throw error, w, []).
Proof.
  intros He. unfold Unchecked.processAccount. rewrite He. reflexivity.
Qed.

Lemma on_item_error_throws key item error caught w :
  email_text item = inl error ->
  Unchecked.on_account_error key item caught w = (Throw error, w, []).
Proof.
  intros He. unfold Unchecked.on_account_error. rewrite He. reflexivity.
Qed.

Lemma item_breaks_false item :
  item_breaks item = false -> exists e, email_text item = inr e.
Proof.
  unfold item_breaks. destruct (email_text item) as [error|e]; [discriminate|].
  eauto.
Qed.

Lemma item_breaks_true item :
  item_breaks item = true ->
  exists error, email_text item = inl error /\ name error = "TypeError".
Proof.
  unfold item_breaks. destruct (email_text item) as [error|e] eqn:He;
    [|discriminate].
  intros _. exists error. split; [reflexivity|].
  apply (email_text_error item error He).
Qed.

Section UncheckedLoop.

Variable process : JsonValue -> option string -> M unit.

Lemma guarded_item_returns key item w :
  item_breaks item = false ->
  exists w' ev,
    try_catch (process item key) (Unchecked.on_account_error key item) w
    = (Ok tt, w', ev).
Proof.
  intros Hitem. destruct (item_breaks_false item Hitem) as (e & He).
  unfold try_catch.
  destruct (process item key w) as [[[[]|error] w1] ev1].
  - do 2 eexists. reflexivity.
  - destruct (on_item_error_returns key item e error w1 He) as (w' & ev & H).
    rewrite H. do 2 eexists. reflexivity.
Qed.

Lemma for_each_item_returns key items : forall w,
  existsb item_breaks items = false ->
  exists w' ev,
    Unchecked.for_each_item process key items w = (Ok tt, w', ev).
Proof.
  induction items as [|item rest IH]; intros w Hitems.
  - do 2 eexists. reflexivity.
  - cbn [existsb] in Hitems. apply orb_false_iff in Hitems.
    destruct Hitems as [Hitem Hrest].
    destruct (guarded_item_returns key item w Hitem) as (w1 & ev1 & H1).
    destruct (IH w1 Hrest) as (w2 & ev2 & H2).
    exists w2, (ev1 ++ ev2)%list. cbn [Unchecked.for_each_item].
    apply (bind_ok _ _ _ _ _ _ _ _ _ H1 H2).
Qed.

(** The loop on the parsed value of a list of accounts is the loop on the
    list, for a step on items that is the step on accounts. *)
Variable process_account : Account -> option string -> M unit.

Hypothesis process_account_value : forall a key w,
  process (account_value a) key w = process_account a key w.

Lemma for_each_item_accounts key accounts : forall w,
  Unchecked.for_each_item process key (map account_value accounts) w
  = for_each_account process_account key accounts w.
Proof.
  induction accounts as [|a rest IH]; intros w; [reflexivity|].
  cbn [map Unchecked.for_each_item for_each_account].
  apply bind_cong; [|intros _ w1; apply IH].
  unfold try_catch. rewrite process_account_value.
  destruct (process_account a key w) as [[[[]|error] w1] ev1]; [reflexivity|].
  destruct (text_of_account a) as (He & _).
  rewrite (on_account_error_text key _ (email a) (cookie a) error w1 He).
  destruct a as [e c]. reflexivity.
Qed.

End UncheckedLoop.

Lemma processAccount_value a key w :
  Unchecked.processAccount (account_value a) key w = processAccount a key w.
Proof.
  destruct (text_of_account a) as (He & Hc & Ht).
  rewrite (processAccount_text _ key _ _ _ w He Hc Ht).
  destruct a as [e c]. reflexivity.
Qed.

(** The worker's loop throws on the first item whose [email] has no
    text. *)
Lemma for_each_item_throws key items : forall w,
  existsb item_breaks items = true ->
  exists error w' ev,
    Unchecked.for_each_item Unchecked.processAccount key items w
    = (Throw error, w', ev) /\
    name error = "TypeError".
Proof.
  induction items as [|item rest IH]; intros w Hitems; [discriminate|].
  cbn [existsb] in Hitems. cbn [Unchecked.for_each_item].
  destruct (item_breaks item) eqn:Hitem.
  - destruct (item_breaks_true item Hitem) as (error & He & Hname).
    exists error, w, []. split; [|exact Hname].
    unfold bind, try_catch.
    rewrite (processAccount_on_item_throws item key error w He).
    rewrite (on_item_error_throws key item error error w He). reflexivity.
  - cbn [orb] in Hitems.
    destruct (guarded_item_returns Unchecked.processAccount key item w Hitem)
      as (w1 & ev1 & H1).
    destruct (IH w1 Hitems) as (error & w2 & ev2 & H2 & Hname).
    exists error, w2, (ev1 ++ ev2)%list. split; [|exact Hname].
    apply (bind_ok _ _ _ _ _ _ _ _ _ H1 H2).
Qed.

(** ** The unchecked run *)

Lemma bind_returns {A B} (m : M A) (k : A -> M B) w a w1 ev1 (b : B) :
  m w = (Ok a, w1, ev1) ->
  (exists w' ev, k a w1 = (Ok b, w', ev)) ->
  exists w' ev, bind m k w = (Ok b, w', ev).
Proof.
  intros Hm (w' & ev & Hk). exists w', (ev1 ++ ev)%list.
  apply (bind_ok _ _ _ _ _ _ _ _ _ Hm Hk).
Qed.

Lemma bind_throws {A B} (m : M A) (k : A -> M B) w a w1 ev1 :
  m w = (Ok a, w1, ev1) ->
  (exists error w' ev,
     k a w1 = (Throw error, w', ev) /\ name error = "TypeError") ->
  exists error w' ev,
    bind m k w = (Throw error, w', ev) /\ name error = "TypeError".
Proof.
  intros Hm (error & w' & ev & Hk & Hname).
  exists error, w', (ev1 ++ ev)%list. split; [|exact Hname].
  apply (bind_ok _ _ _ _ _ _ _ _ _ Hm Hk).
Qed.

(** The run on a stored list of accounts: the unchecked run is the run on
    the list. *)
Lemma run_on_account_list parse step process env w :
  (forall a key w1, step (account_value a) key w1 = process a key w1) ->
  Unchecked.handleScheduled_with (unchecked parse) step env w
  = handleScheduled_with parse process env w.
Proof.
  intros Hstep. unfold Unchecked.handleScheduled_with, handleScheduled_with.
  cbn zeta.
  apply bind_ext. intros _ w1. apply bind_ext. intros now w2.
  apply bind_ext. intros _ w3.
  destruct (truthy (CURSOR_KV env "cursor_accounts")) as [accountsJson|];
    [|reflexivity].
  unfold unchecked.
  destruct (parse accountsJson) as [error|accounts]; [reflexivity|].
  destruct accounts as [|a rest]; [reflexivity|].
  cbn [accounts_value get_property eval]. rewrite bind_ret. cbv beta.
  rewrite length_map. cbn [List.length Nat.eqb].
  replace (is_zero (Some (JNum (Z.of_nat (S (List.length rest)))))) with false
    by reflexivity.
  cbn [template to_string eval].
  rewrite bind_ret.
  apply bind_ext. intros _ w4.
  cbn [iterate accounts_value eval]. rewrite bind_ret.
  apply bind_cong; [|reflexivity].
  apply (for_each_item_accounts step process Hstep).
Qed.

Lemma worker_run_on_account_list parse env w :
  Unchecked.handleScheduled (unchecked parse) env w
  = handleScheduled parse env w.
Proof.
  apply run_on_account_list. intros a key w1. apply processAccount_value.
Qed.

(** The unchecked run stops on a text that does not parse, as the run on
    lists does. *)
Lemma unchecked_run_stops_malformed parse env w accountsJson error :
  truthy (CURSOR_KV env "cursor_accounts") = Some accountsJson ->
  parse accountsJson = inl error ->
  exists w' ev,
    (forall process,
       Unchecked.handleScheduled_with parse process env w
       = (Ok tt, w', ev)) /\
    notifications ev =
      [notification (WECHAT_WEBHOOK_KEY env) MSG_CONFIG_MALFORMED] /\
    dashboard_calls ev = [] /\
    same_dashboard w w'.
Proof.
  intros Hkv Hparse.
  destruct (sendWeChatNotification_run (WECHAT_WEBHOOK_KEY env)
              MSG_CONFIG_MALFORMED w)
    as (b & w' & evn & Hn & Hn1 & _ & _ & Hb & Hsame & _).
  exists w', (run_header w ++
              Console Error ("解析账号配置失败: " ++ error_to_string error)
                :: evn ++ [])%list.
  split; [|repeat split; try observe; apply Hsame].
  intros process. unfold Unchecked.handleScheduled_with. cbn zeta.
  rewrite Hkv, Hparse.
  unfold bind at 1. cbn [console_log emit].
  unfold bind at 1. cbn [Date_now_iso].
  unfold bind at 1. cbn [console_log emit].
  unfold bind at 1. cbn [console_error emit].
  unfold bind at 1. rewrite Hn. reflexivity.
Qed.

Lemma items_of_string_hold l : existsb item_breaks (map JStr l) = false.
Proof. induction l as [|point rest IH]; [reflexivity|exact IH]. Qed.

Lemma items_of_accounts_hold l :
  existsb item_breaks (map account_value l) = false.
Proof. induction l as [|a rest IH]; [reflexivity|exact IH]. Qed.

(** The body of the run on a parsed value. *)
Lemma unchecked_run_returns parse process env w :
  stored_value_breaks parse env = false ->
  exists w' ev,
    Unchecked.handleScheduled_with parse process env w = (Ok tt, w', ev).
Proof.
  unfold stored_value_breaks, Unchecked.handleScheduled_with. cbn zeta.
  intros Hv.
  eapply bind_returns; [reflexivity|].
  eapply bind_returns; [reflexivity|].
  eapply bind_returns; [reflexivity|].
  destruct (truthy (CURSOR_KV env "cursor_accounts")) as [accountsJson|].
  - destruct (parse accountsJson) as [error|v].
    + eapply bind_returns; [reflexivity|].
      destruct (sendWeChatNotification_run (WECHAT_WEBHOOK_KEY env)
                  MSG_CONFIG_MALFORMED w)
        as (b & w' & evn & Hn & _).
      eapply bind_returns; [exact Hn|]. do 2 eexists. reflexivity.
    + destruct v as [|b|n|s|items|fields]; try discriminate.
      * cbn [get_property eval]. rewrite bind_ret.
        destruct (is_zero (Some (JNum (utf16_length s)))).
        { do 2 eexists. reflexivity. }
        cbn [template to_string eval]. rewrite bind_ret.
        eapply bind_returns; [reflexivity|].
        cbn [iterate eval]. rewrite bind_ret.
        destruct (for_each_item_returns process (WECHAT_WEBHOOK_KEY env)
                    (map JStr (code_points s)) w (items_of_string_hold _))
          as (w' & ev & Hloop).
        eapply bind_returns; [exact Hloop|]. do 2 eexists. reflexivity.
      * cbn [get_property eval]. rewrite bind_ret.
        destruct (is_zero (Some (JNum (Z.of_nat (List.length items))))).
        { do 2 eexists. reflexivity. }
        cbn [template to_string eval]. rewrite bind_ret.
        eapply bind_returns; [reflexivity|].
        cbn [iterate eval]. rewrite bind_ret.
        destruct (for_each_item_returns process (WECHAT_WEBHOOK_KEY env)
                    items w Hv) as (w' & ev & Hloop).
        eapply bind_returns; [exact Hloop|]. do 2 eexists. reflexivity.
      * cbn [breaks_run] in Hv. apply negb_false_iff in Hv.
        cbn [get_property property_key eval]. rewrite bind_ret, Hv.
        do 2 eexists. reflexivity.
  - eapply bind_returns; [reflexivity|].
    destruct (sendWeChatNotification_run (WECHAT_WEBHOOK_KEY env)
                MSG_CONFIG_MISSING w)
      as (b & w' & evn & Hn & _).
    eapply bind_returns; [exact Hn|]. do 2 eexists. reflexivity.
Qed.

Lemma unchecked_run_throws parse env w :
  stored_value_breaks parse env = true ->
  exists error w' ev,
    Unchecked.handleScheduled parse env w = (Throw error, w', ev) /\
    name error = "TypeError".
Proof.
  unfold stored_value_breaks, Unchecked.handleScheduled,
    Unchecked.handleScheduled_with. cbn zeta.
  intros Hv.
  eapply bind_throws; [reflexivity|].
  eapply bind_throws; [reflexivity|].
  eapply bind_throws; [reflexivity|].
  destruct (truthy (CURSOR_KV env "cursor_accounts")) as [accountsJson|];
    [|discriminate].
  destruct (parse accountsJson) as [error|v]; [discriminate|].
  destruct v as [|b|n|s|items|fields]; try discriminate.
  - do 3 eexists. split; reflexivity.
  - do 3 eexists. split; reflexivity.
  - do 3 eexists. split; reflexivity.
  - cbn [get_property eval]. rewrite bind_ret.
    destruct (is_zero (Some (JNum (Z.of_nat (List.length items))))) eqn:Hz.
    { destruct items; [discriminate Hv|discriminate Hz]. }
    cbn [template to_string eval]. rewrite bind_ret.
    eapply bind_throws; [reflexivity|].
    cbn [iterate eval]. rewrite bind_ret.
    destruct (for_each_item_throws (WECHAT_WEBHOOK_KEY env) items w Hv)
      as (error & w' & ev & Hloop & Hname).
    exists error, w', ev. split; [|exact Hname].
    unfold bind. rewrite Hloop. reflexivity.
  - cbn [breaks_run] in Hv. apply negb_true_iff in Hv.
    cbn [get_property property_key eval]. rewrite bind_ret, Hv.
    destruct (template (lookup "length" fields)) as [error|count] eqn:Ht.
    + exists error, w, []. split; [reflexivity|].
      apply (template_error _ _ Ht).
    + cbn [eval]. rewrite bind_ret.
      do 3 eexists. split; reflexivity.
Qed.

(** ** Worked examples *)

(** One stored account whose limit is 50, a disable call that goes
    through: one notification, naming the account and the limit and saying
    that the limit was turned off. *)
Example run_turns_limit_off :
  let env := env_with (Some (accounts_text [alice])) (Some "k") in
  let ev := events (handleScheduled sample_parse env) world_limit_on in
  dashboard_calls ev = [status_call "c1"; disable_call "c1"] /\
  webhook_calls ev =
    [Fetch (WEBHOOK_URL "k") (text_message (MSG_DISABLED "a@x.com" 50))] /\
  contains "a@x.com" (MSG_DISABLED "a@x.com" 50) = true /\
  contains "50" (MSG_DISABLED "a@x.com" 50) = true /\
  contains "已自动关闭" (MSG_DISABLED "a@x.com" 50) = true.
Proof. repeat split. Qed.

(** No stored entry: the one outbound call of the run is the
    configuration-missing notification. *)
Example run_without_configuration :
  let env := env_with None (Some "k") in
  let ev := events (handleScheduled sample_parse env) world_limit_on in
  outbound_calls ev =
    [Fetch (WEBHOOK_URL "k") (text_message MSG_CONFIG_MISSING)] /\
  contains "未找到账号配置" MSG_CONFIG_MISSING = true.
Proof. repeat split. Qed.

(** An empty stored list is no error: nothing is called, nothing is sent. *)
Example run_over_empty_list :
  let env := env_with (Some (accounts_text [])) (Some "k") in
  handleScheduled sample_parse env world_limit_on =
  (Ok tt, world_limit_on,
   (run_header world_limit_on ++ [Console Log "账号列表为空"])%list).
Proof. reflexivity. Qed.

(** Without a key the Notifier refuses on the console and calls nothing;
    the dashboard calls are made all the same. *)
Example run_without_key :
  let env := env_with (Some (accounts_text [alice])) None in
  let ev := events (handleScheduled sample_parse env) world_limit_on in
  dashboard_calls ev = [status_call "c1"; disable_call "c1"] /\
  webhook_calls ev = [] /\
  notifications ev = [Console Error KEY_MISSING].
Proof. repeat split. Qed.

(** The health probe answers with the clock's reading. *)
Example health_probe :
  Worker.fetch sample_parse
    {| request_method := "POST"; pathname := "/health"; search := "" |}
    (env_with None None) world_limit_on =
  (Ok (json_response
         (JObj [ ("status", JStr "healthy");
                 ("timestamp", JStr "2026-01-01T00:00:00.000Z") ])),
   world_limit_on, []).
Proof. reflexivity. Qed.

(** * The claims *)

(** In what follows a notification is one call of the Notifier, seen by
    what it leaves behind ([notifications]): the request to the webhook
    that carries the text when the key is set, the refusal on the console
    when the key is missing or empty.  [webhook_calls] keeps the requests
    only. *)

(** ** AccountProcessor *)

(** Claim C1, as amended.  When the status query returns a result whose
    [noUsageBasedAllowed] is absent or false and whose [hardLimit] is
    present and above zero, [processAccount] returns after exactly one
    disable call, made with the account's cookie, and exactly one
    notification.  The notification says that the limit was turned off when
    the disable call succeeded and that turning it off failed otherwise;
    the two texts differ, and the first one shows the detected limit.
    With a key that is set, the notification is one request to the webhook
    with that text. *)
Theorem limit_detected_then_disabled a key w st limit :
  outcome (checkHardLimit (cookie a)) w = Ok (Some st) ->
  noUsageBasedAllowed st = None \/ noUsageBasedAllowed st = Some false ->
  hardLimit st = Some limit ->
  0 < limit ->
  exists success w' ev,
    outcome (disableHardLimit (cookie a))
            (world_after (checkHardLimit (cookie a)) w) = Ok success /\
    processAccount a key w = (Ok tt, w', ev) /\
    disable_calls ev = [disable_call (cookie a)] /\
    notifications ev =
      [notification key
         (if success then MSG_DISABLED (email a) limit
          else MSG_DISABLE_FAILED (email a))] /\
    webhook_calls ev =
      match truthy key with
      | Some k =>
          [Fetch (WEBHOOK_URL k)
             (text_message
                (if success then MSG_DISABLED (email a) limit
                 else MSG_DISABLE_FAILED (email a)))]
      | None => []
      end /\
    MSG_DISABLED (email a) limit <> MSG_DISABLE_FAILED (email a) /\
    contains (number_to_string limit) (MSG_DISABLED (email a) limit) = true.
Proof.
  intros Hst Hflag Hlim Hpos.
  pose proof (run_of (checkHardLimit (cookie a)) w) as Hc. rewrite Hst in Hc.
  destruct (processAccount_run a key w _ _ _ Hc)
    as (w' & ev & Hp & _ & Hd & _ & Hn & _).
  rewrite (detected_limit_Some _ _ Hflag Hlim Hpos) in Hd, Hn.
  destruct (disableHardLimit_run (cookie a)
              (world_after (checkHardLimit (cookie a)) w))
    as (w2 & ev2 & Hrun & _).
  exists (disable_accepted (world_after (checkHardLimit (cookie a)) w)), w', ev.
  unfold outcome at 1. rewrite Hrun. cbn [fst].
  repeat split;
    auto using MSG_DISABLED_differs, MSG_DISABLED_mentions_limit,
      notification_reaches_webhook.
Qed.

(** The hypotheses of C1 hold for an account whose limit is 50: one
    disable call and one notification follow. *)
Lemma limit_detected_then_disabled_witness :
  exists w' ev,
    processAccount alice (Some "k") world_limit_on = (Ok tt, w', ev) /\
    disable_calls ev = [disable_call "c1"] /\
    notifications ev =
      [notification (Some "k") (MSG_DISABLED "a@x.com" 50)].
Proof.
  destruct (limit_detected_then_disabled alice (Some "k") world_limit_on
              limit_50 50)
    as (success & w' & ev & Hs & Hp & Hd & Hn & _ & _).
  - reflexivity.
  - left. reflexivity.
  - reflexivity.
  - reflexivity.
  - exists w', ev. injection Hs as <-. auto.
Defined.

(** Against claim C1 as first stated: the limit is 50 and the disable call
    is refused; the one notification that is sent does not show the
    limit. *)
Lemma failure_notice_lacks_limit :
  outcome (checkHardLimit (cookie alice)) world_disable_refused
    = Ok (Some limit_50) /\
  noUsageBasedAllowed limit_50 = None /\
  hardLimit limit_50 = Some 50 /\
  notifications (events (processAccount alice (Some "k"))
                        world_disable_refused)
    = [Fetch (WEBHOOK_URL "k") (text_message (MSG_DISABLE_FAILED "a@x.com"))] /\
  contains (number_to_string 50) (MSG_DISABLE_FAILED "a@x.com") = false.
Proof. repeat split. Qed.

(** Claim C2.  When the status query returns a result whose
    [noUsageBasedAllowed] is [true], whatever its [hardLimit], or whose
    [hardLimit] is zero, [processAccount] returns without a disable call
    and without a notification. *)
Theorem no_action_when_disallowed_or_zero a key w st :
  outcome (checkHardLimit (cookie a)) w = Ok (Some st) ->
  noUsageBasedAllowed st = Some true \/ hardLimit st = Some 0 ->
  exists w' ev,
    processAccount a key w = (Ok tt, w', ev) /\
    disable_calls ev = [] /\
    notifications ev = [].
Proof.
  intros Hst Hcase.
  pose proof (run_of (checkHardLimit (cookie a)) w) as Hc. rewrite Hst in Hc.
  destruct (processAccount_run a key w _ _ _ Hc)
    as (w' & ev & Hp & _ & Hd & _ & Hn & _).
  rewrite (detected_limit_None _ Hcase) in Hd, Hn.
  exists w', ev. auto.
Qed.

(** The hypotheses of C2 hold for a status that is flagged disallowed and
    shows a limit of 50. *)
Lemma no_action_when_disallowed_or_zero_witness :
  hardLimit disallowed_with_limit = Some 50 /\
  exists w' ev,
    processAccount alice (Some "k") world_disallowed = (Ok tt, w', ev) /\
    disable_calls ev = [] /\
    notifications ev = [].
Proof.
  split; [reflexivity|].
  apply (no_action_when_disallowed_or_zero alice (Some "k") world_disallowed
           disallowed_with_limit).
  - reflexivity.
  - left. reflexivity.
Defined.

(** Claim C3.  When the status check gives the failure marker,
    [processAccount] returns after exactly one notification, which names
    the account and says that its cookie may have expired, and without a
    disable call.  With a key that is set, the notification is one request
    to the webhook with that text. *)
Theorem status_failure_notifies_once a key w :
  outcome (checkHardLimit (cookie a)) w = Ok None ->
  exists w' ev,
    processAccount a key w = (Ok tt, w', ev) /\
    notifications ev = [notification key (MSG_CHECK_FAILED (email a))] /\
    webhook_calls ev =
      match truthy key with
      | Some k =>
          [Fetch (WEBHOOK_URL k) (text_message (MSG_CHECK_FAILED (email a)))]
      | None => []
      end /\
    contains "可能 Cookie 已过期" (MSG_CHECK_FAILED (email a)) = true /\
    contains (email a) (MSG_CHECK_FAILED (email a)) = true /\
    disable_calls ev = [].
Proof.
  intros Hst.
  pose proof (run_of (checkHardLimit (cookie a)) w) as Hc. rewrite Hst in Hc.
  destruct (processAccount_run a key w _ _ _ Hc)
    as (w' & ev & Hp & _ & Hd & _ & Hn & _).
  exists w', ev. cbn in Hd, Hn.
  destruct (MSG_CHECK_FAILED_wording (email a)).
  repeat split; auto using notification_reaches_webhook.
Qed.

(** The hypothesis of C3 holds when the status endpoint answers 401. *)
Lemma status_failure_notifies_once_witness :
  exists w' ev,
    processAccount alice (Some "k") world_expired = (Ok tt, w', ev) /\
    notifications ev = [notification (Some "k") (MSG_CHECK_FAILED "a@x.com")] /\
    disable_calls ev = [].
Proof.
  destruct (status_failure_notifies_once alice (Some "k") world_expired)
    as (w' & ev & Hp & Hn & _ & _ & _ & Hd).
  - reflexivity.
  - exists w', ev. auto.
Defined.

(** The failure marker is given exactly when the reply is a failure: no
    reply or a rejection, a status that is not a success, or a body that
    does not parse. *)
Lemma checkHardLimit_fails_iff cookie w :
  outcome (checkHardLimit cookie) w = Ok None <-> status_reply_fails w = true.
Proof.
  destruct (checkHardLimit_run cookie w)
    as (st & w' & ev & Hc & _ & _ & _ & _ & Hf & _).
  unfold outcome. rewrite Hc. cbn [fst]. rewrite <- Hf.
  split; [intros [= ->]; reflexivity | intros ->; reflexivity].
Qed.

(** Claim C8, as amended.  In the per-account decision an absent
    [noUsageBasedAllowed] is read as [false] and an absent [hardLimit] as
    zero: on every input the run is the same, result, world and events. *)
Theorem absent_fields_read_as_false_and_zero a key w code :
  (forall limit,
     processAccount a key
       (answering code {| noUsageBasedAllowed := None; hardLimit := limit |} w) =
     processAccount a key
       (answering code
          {| noUsageBasedAllowed := Some false; hardLimit := limit |} w)) /\
  (forall flag,
     processAccount a key
       (answering code {| noUsageBasedAllowed := flag; hardLimit := None |} w) =
     processAccount a key
       (answering code {| noUsageBasedAllowed := flag; hardLimit := Some 0 |} w)).
Proof.
  split; intros; [apply absent_flag_as_false | apply absent_limit_as_zero].
Qed.

(** Against claim C8 as first stated: no input tells an absent
    [noUsageBasedAllowed] from [false], and none tells an absent [hardLimit]
    from zero. *)
Lemma absence_is_not_distinguished :
  ~ (exists a key w code limit,
       processAccount a key
         (answering code
            {| noUsageBasedAllowed := None; hardLimit := limit |} w) <>
       processAccount a key
         (answering code
            {| noUsageBasedAllowed := Some false; hardLimit := limit |} w)) /\
  ~ (exists a key w code flag,
       processAccount a key
         (answering code
            {| noUsageBasedAllowed := flag; hardLimit := None |} w) <>
       processAccount a key
         (answering code
            {| noUsageBasedAllowed := flag; hardLimit := Some 0 |} w)).
Proof.
  split.
  - intros (a & key & w & code & limit & H). apply H, absent_flag_as_false.
  - intros (a & key & w & code & flag & H). apply H, absent_limit_as_zero.
Qed.

(** ** RunController *)

(** Claim C6.  When the stored entry is absent or empty, the run returns
    after exactly one notification, the configuration-missing one, and
    makes no status-check or disable call; no account is processed: the
    run is the same whatever the per-account step is. *)
Theorem missing_configuration_stops_run parse env w :
  CURSOR_KV env "cursor_accounts" = None \/
  CURSOR_KV env "cursor_accounts" = Some "" ->
  exists w' ev,
    handleScheduled parse env w = (Ok tt, w', ev) /\
    notifications ev =
      [notification (WECHAT_WEBHOOK_KEY env) MSG_CONFIG_MISSING] /\
    webhook_calls ev =
      match truthy (WECHAT_WEBHOOK_KEY env) with
      | Some k => [Fetch (WEBHOOK_URL k) (text_message MSG_CONFIG_MISSING)]
      | None => []
      end /\
    dashboard_calls ev = [] /\
    forall process,
      handleScheduled_with parse process env w = (Ok tt, w', ev).
Proof.
  intros Hkv. apply truthy_missing in Hkv.
  destruct (run_stops_missing parse env w Hkv) as (w' & ev & Hrun & Hn & Hd & _).
  exists w', ev.
  repeat split; auto using notification_reaches_webhook. apply Hrun.
Qed.

(** The hypothesis of C6 holds for a store without the entry. *)
Lemma missing_configuration_stops_run_witness :
  exists w' ev,
    handleScheduled sample_parse (env_with None (Some "k")) world_three
      = (Ok tt, w', ev) /\
    notifications ev = [notification (Some "k") MSG_CONFIG_MISSING] /\
    dashboard_calls ev = [].
Proof.
  destruct (missing_configuration_stops_run sample_parse
              (env_with None (Some "k")) world_three)
    as (w' & ev & Hrun & Hn & _ & Hd & _).
  - left. reflexivity.
  - exists w', ev. auto.
Defined.

(** Claim C4, as amended.  When the stored entry is present and
    [JSON.parse] throws on it, the run returns, nothing is thrown past it,
    after exactly one notification, the malformed-configuration one, whose
    text is not that of the missing-configuration one; it makes no
    dashboard call and processes no account: the run is the same whatever
    the per-account step is. *)
Theorem malformed_configuration_stops_run parse env w accountsJson error :
  CURSOR_KV env "cursor_accounts" = Some accountsJson ->
  accountsJson <> "" ->
  parse accountsJson = inl error ->
  exists w' ev,
    Unchecked.handleScheduled parse env w = (Ok tt, w', ev) /\
    notifications ev =
      [notification (WECHAT_WEBHOOK_KEY env) MSG_CONFIG_MALFORMED] /\
    webhook_calls ev =
      match truthy (WECHAT_WEBHOOK_KEY env) with
      | Some k => [Fetch (WEBHOOK_URL k) (text_message MSG_CONFIG_MALFORMED)]
      | None => []
      end /\
    MSG_CONFIG_MALFORMED <> MSG_CONFIG_MISSING /\
    dashboard_calls ev = [] /\
    forall process,
      Unchecked.handleScheduled_with parse process env w = (Ok tt, w', ev).
Proof.
  intros Hkv Hne Hparse.
  assert (Ht : truthy (CURSOR_KV env "cursor_accounts") = Some accountsJson)
    by (rewrite Hkv; apply truthy_present, Hne).
  destruct (unchecked_run_stops_malformed parse env w _ _ Ht Hparse)
    as (w' & ev & Hrun & Hn & Hd & _).
  exists w', ev.
  repeat split; auto using notification_reaches_webhook;
    [apply Hrun | discriminate].
Qed.

(** The hypotheses of C4 hold for a stored text that is cut short. *)
Lemma malformed_configuration_stops_run_witness :
  exists w' ev,
    Unchecked.handleScheduled sample_parse_value
      (env_with (Some "[{") (Some "k")) world_three
      = (Ok tt, w', ev) /\
    notifications ev = [notification (Some "k") MSG_CONFIG_MALFORMED] /\
    dashboard_calls ev = [].
Proof.
  destruct (malformed_configuration_stops_run sample_parse_value
              (env_with (Some "[{") (Some "k")) world_three "[{"
              {| name := "SyntaxError"; message := "Unexpected token" |})
    as (w' & ev & Hrun & Hn & _ & _ & Hd & _).
  - reflexivity.
  - discriminate.
  - reflexivity.
  - exists w', ev. auto.
Defined.

(** Against claim C4 as first stated: three stored texts that parse, to
    values that are no list of accounts.  The cast lets each through; the run
    throws a [TypeError] past the run controller, on [accounts.length],
    on the [for] and in the [catch] block, and sends no notification. *)
Lemma parsed_value_escapes_run :
  (sample_parse_value "null" = inr JNull /\
   as_account_list JNull = None /\
   Unchecked.handleScheduled sample_parse_value
     (env_with (Some "null") (Some "k")) world_three
   = (Throw (TypeError "Cannot read properties of null (reading 'length')"),
      world_three, run_header world_three)) /\
  (sample_parse_value "{}" = inr (JObj []) /\
   as_account_list (JObj []) = None /\
   Unchecked.handleScheduled sample_parse_value
     (env_with (Some "{}") (Some "k")) world_three
   = (Throw (TypeError "accounts is not iterable"), world_three,
      (run_header world_three
       ++ [Console Log "共有 undefined 个账号需要检查"])%list)) /\
  (sample_parse_value "[null]" = inr (JArr [JNull]) /\
   as_account_list (JArr [JNull]) = None /\
   Unchecked.handleScheduled sample_parse_value
     (env_with (Some "[null]") (Some "k")) world_three
   = (Throw (TypeError "Cannot read properties of null (reading 'email')"),
      world_three,
      (run_header world_three
       ++ [Console Log "共有 1 个账号需要检查"])%list)) /\
  notifications (run_header world_three) = [] /\
  notifications (run_header world_three
                 ++ [Console Log "共有 undefined 个账号需要检查"])%list = [] /\
  notifications (run_header world_three
                 ++ [Console Log "共有 1 个账号需要检查"])%list = [].
Proof. repeat split. Qed.

(** Claim C5.  Let the stored list be [pre ++ a :: post] and let the
    processing of [a], reached after the accounts of [pre], throw.  Then
    the accounts of [pre] were processed without a throw, the error is
    caught: the [catch] block leaves exactly one notification, which names
    [a], and makes no dashboard call; the accounts of [post] are then
    processed from the world the [catch] block leaves, and the run returns
    with the events of all three parts, in order, between its opening and
    closing lines. *)
Theorem run_survives_account_error parse process env w accountsJson
    pre a post e w1 ev1 :
  let key := WECHAT_WEBHOOK_KEY env in
  let before := for_each_account process key pre in
  let after := for_each_account process key post in
  CURSOR_KV env "cursor_accounts" = Some accountsJson ->
  accountsJson <> "" ->
  parse accountsJson = inr (pre ++ a :: post)%list ->
  process a key (world_after before w) = (Throw e, w1, ev1) ->
  exists w2 ev2,
    outcome before w = Ok tt /\
    on_account_error key a e w1 = (Ok tt, w2, ev2) /\
    notifications ev2 = [notification key (MSG_ACCOUNT_ERROR (email a))] /\
    webhook_calls ev2 =
      match truthy key with
      | Some k =>
          [Fetch (WEBHOOK_URL k) (text_message (MSG_ACCOUNT_ERROR (email a)))]
      | None => []
      end /\
    contains (email a) (MSG_ACCOUNT_ERROR (email a)) = true /\
    dashboard_calls ev2 = [] /\
    same_dashboard w1 w2 /\
    outcome after w2 = Ok tt /\
    handleScheduled_with parse process env w =
    (Ok tt, world_after after w2,
     (run_header w ++
      Console Log ("共有 " ++ length_to_string (pre ++ a :: post)%list
                   ++ " 个账号需要检查") ::
      (events before w ++ (ev1 ++ ev2) ++ events after w2) ++
      [Console Log "=== Cursor 按量付费监控任务完成 ==="])%list).
Proof.
  intros key before after Hkv Hne Hparse Hthrow.
  destruct (for_each_account_returns process key pre w) as (w0 & ev0 & H0).
  destruct (on_account_error_run key a e w1)
    as (w2 & ev2 & Hh & Hn & Hd & Hsame).
  destruct (for_each_account_returns process key post w2) as (w3 & ev3 & H3).
  exists w2, ev2.
  unfold outcome, world_after, events in *. fold before in H0. fold after in H3.
  rewrite H0 in *. rewrite H3. cbn [fst snd] in *.
  repeat split; auto using notification_reaches_webhook.
  - unfold MSG_ACCOUNT_ERROR. apply contains_app.
  - apply Hsame.
  - apply Hsame.
  - apply (handleScheduled_with_accounts _ _ _ _ _ _ _ _ Hkv Hne Hparse).
    + destruct pre; discriminate.
    + fold key. rewrite for_each_account_app.
      apply (bind_ok _ _ _ _ _ _ _ _ _ H0).
      rewrite for_each_account_cons.
      apply bind_ok with (a := tt) (w1 := w2); [|exact H3].
      unfold try_catch. rewrite Hthrow, Hh. reflexivity.
Qed.

(** The hypotheses of C5 hold for three accounts and a step that throws
    on the second: the run returns, and both the first and the third
    account have their limit turned off. *)
Lemma run_survives_account_error_witness :
  let env := env_with (Some (accounts_text [alice; bob; carol])) (Some "k") in
  let step := step_failing_on "b@x.com" in
  outcome (handleScheduled_with sample_parse step env) world_three = Ok tt /\
  disable_calls (events (handleScheduled_with sample_parse step env) world_three)
    = [disable_call "c1"; disable_call "c3"].
Proof.
  intros env step.
  destruct (run_survives_account_error sample_parse step env world_three
              (accounts_text [alice; bob; carol]) [alice] bob [carol]
              {| name := "Error"; message := "unexpected" |}
              (world_after (for_each_account step (Some "k") [alice])
                           world_three)
              [])
    as (w2 & ev2 & _ & _ & _ & _ & _ & _ & _ & _ & Hrun).
  - reflexivity.
  - discriminate.
  - reflexivity.
  - reflexivity.
  - unfold outcome. rewrite Hrun. split; reflexivity.
Defined.

(** Claim C9.  Two runs over the same stored list and the same dashboard
    answers, under any two webhook keys (set, empty or missing) and any
    two webhook behaviours, both return and make the same status-check and
    disable calls, in the same order and with the same cookies, and leave
    the dashboard in the same state. *)
Theorem webhook_key_does_not_steer parse env1 env2 w1 w2 :
  CURSOR_KV env1 "cursor_accounts" = CURSOR_KV env2 "cursor_accounts" ->
  same_dashboard w1 w2 ->
  outcome (handleScheduled parse env1) w1 = Ok tt /\
  outcome (handleScheduled parse env2) w2 = Ok tt /\
  dashboard_calls (events (handleScheduled parse env1) w1) =
  dashboard_calls (events (handleScheduled parse env2) w2) /\
  same_dashboard (world_after (handleScheduled parse env1) w1)
                 (world_after (handleScheduled parse env2) w2).
Proof.
  intros Hkv Hsame. unfold handleScheduled, outcome, events, world_after.
  destruct (truthy (CURSOR_KV env1 "cursor_accounts")) as [accountsJson|] eqn:Ht1.
  - assert (Ht2 : truthy (CURSOR_KV env2 "cursor_accounts") = Some accountsJson)
      by (rewrite <- Hkv; exact Ht1).
    destruct (parse accountsJson) as [error|accounts] eqn:Hparse.
    + destruct (run_stops_malformed parse env1 w1 _ _ Ht1 Hparse)
        as (u1 & e1 & Hr1 & _ & Hd1 & Hs1).
      destruct (run_stops_malformed parse env2 w2 _ _ Ht2 Hparse)
        as (u2 & e2 & Hr2 & _ & Hd2 & Hs2).
      rewrite Hr1, Hr2. cbn [fst snd]. repeat split; try congruence.
      * destruct Hs1, Hs2, Hsame; congruence.
      * destruct Hs1, Hs2, Hsame; congruence.
    + destruct accounts as [|a rest].
      * rewrite (run_empty_list parse _ env1 w1 _ Ht1 Hparse).
        rewrite (run_empty_list parse _ env2 w2 _ Ht2 Hparse).
        cbn [fst snd]. repeat split; apply Hsame.
      * destruct (for_each_account_same (a :: rest)
                    (WECHAT_WEBHOOK_KEY env1) (WECHAT_WEBHOOK_KEY env2) w1 w2 Hsame)
          as (u1 & e1 & u2 & e2 & Hl1 & Hl2 & Hcalls & Hu).
        destruct (truthy_Some_inv _ _ Ht1) as [K1 Hne].
        destruct (truthy_Some_inv _ _ Ht2) as [K2 _].
        rewrite (handleScheduled_with_accounts parse _ env1 w1 _ _ _ _ K1 Hne Hparse
                   ltac:(discriminate) Hl1).
        rewrite (handleScheduled_with_accounts parse _ env2 w2 _ _ _ _ K2 Hne Hparse
                   ltac:(discriminate) Hl2).
        cbn [fst snd]. repeat split; try apply Hu.
        unfold run_header. cbn [app].
        unfold dashboard_calls in *. cbn [filter is_dashboard_call is_status_call is_disable_call orb].
        rewrite !filter_app, Hcalls. reflexivity.
  - assert (Ht2 : truthy (CURSOR_KV env2 "cursor_accounts") = None)
      by (rewrite <- Hkv; exact Ht1).
    destruct (run_stops_missing parse env1 w1 Ht1) as (u1 & e1 & Hr1 & _ & Hd1 & Hs1).
    destruct (run_stops_missing parse env2 w2 Ht2) as (u2 & e2 & Hr2 & _ & Hd2 & Hs2).
    rewrite Hr1, Hr2. cbn [fst snd]. repeat split; try congruence.
    + destruct Hs1, Hs2, Hsame; congruence.
    + destruct Hs1, Hs2, Hsame; congruence.
Qed.

(** The hypotheses of C9 hold for a run with a key and a working webhook
    and a run without a key: both make the same six dashboard calls. *)
Lemma webhook_key_does_not_steer_witness :
  let stored := Some (accounts_text [alice; bob; carol]) in
  dashboard_calls
    (events (handleScheduled sample_parse (env_with stored (Some "k")))
            world_three) =
  dashboard_calls
    (events (handleScheduled sample_parse (env_with stored None))
            world_three_silent) /\
  dashboard_calls
    (events (handleScheduled sample_parse (env_with stored None))
            world_three_silent) =
  [ status_call "c1"; disable_call "c1";
    status_call "c2"; disable_call "c2";
    status_call "c3"; disable_call "c3" ].
Proof.
  intros stored. split; [|reflexivity].
  apply (webhook_key_does_not_steer sample_parse
           (env_with stored (Some "k")) (env_with stored None)
           world_three world_three_silent).
  - reflexivity.
  - split; reflexivity.
Defined.

(** ** Notifier *)

(** Claim C7.  [sendWeChatNotification] returns for every key and message,
    it never throws.  With a key that is missing or empty it returns
    [false] and makes no outbound call.  With any other key it makes one
    request to the webhook, and returns [true] exactly when the reply is a
    response with a success status whose body parses and has [errcode]
    zero. *)
Theorem sendWeChatNotification_contract key message w :
  exists b w' ev,
    sendWeChatNotification key message w = (Ok b, w', ev) /\
    (key = None \/ key = Some "" ->
       b = false /\ w' = w /\ outbound_calls ev = []) /\
    (forall k, key = Some k -> k <> "" ->
       outbound_calls ev = [Fetch (WEBHOOK_URL k) (text_message message)] /\
       (b = true <->
        exists r tl v,
          webhook_send w = Replied r :: tl /\
          ok r = true /\ json_body r = inr v /\ errcode v = 0)).
Proof.
  unfold sendWeChatNotification.
  destruct (truthy key) as [k|] eqn:Hk.
  - apply truthy_Some_inv in Hk. destruct Hk as [-> Hne].
    unfold try_catch, bind, fetch. cbn [script wechat_webhook advance].
    destruct (webhook_send w) as [|[e|[o s [e|v]]] tl].
    + do 3 eexists. split; [reflexivity|]. split.
      * intros [H|H]; congruence.
      * intros k' [= <-] _. split; [reflexivity|]. split; [discriminate|].
        intros (r & tl' & v & H & _). discriminate H.
    + do 3 eexists. split; [reflexivity|]. split.
      * intros [H|H]; congruence.
      * intros k' [= <-] _. split; [reflexivity|]. split; [discriminate|].
        intros (r & tl' & v & H & _). discriminate H.
    + destruct o; do 3 eexists; (split; [reflexivity|]); split;
        try (intros [H|H]; congruence);
        intros k' [= <-] _; (split; [reflexivity|]); (split; [discriminate|]);
        intros (r & tl' & v & H & Hok & Hbody & _); injection H as <- <-;
        cbn in *; congruence.
    + destruct o; [destruct (errcode v =? 0) eqn:E|];
        do 3 eexists; (split; [cbn; rewrite ?E; reflexivity|]); split;
        try (intros [H|H]; congruence);
        intros k' [= <-] _; (split; [reflexivity|]).
      * split; [intros _|reflexivity].
        exists {| ok := true; status := s; json_body := inr v |}, tl, v.
        apply Z.eqb_eq in E. auto.
      * split; [discriminate|].
        intros (r & tl' & v' & H & Hok & Hbody & Herr). injection H as <- <-.
        cbn in Hbody. injection Hbody as <-.
        apply Z.eqb_neq in E. contradiction.
      * split; [discriminate|].
        intros (r & tl' & v' & H & Hok & _). injection H as <- <-.
        cbn in Hok. discriminate Hok.
  - do 3 eexists. split; [reflexivity|]. split.
    + intros _. auto.
    + intros k -> Hne. rewrite (truthy_present _ Hne) in Hk. discriminate.
Qed.

(** ** EntryPoints *)

(** The cron trigger runs the run controller and returns. *)
Lemma scheduled_runs_controller parse env w :
  Worker.scheduled parse env w =
  (Ok tt, world_after (handleScheduled parse env) w,
   events (handleScheduled parse env) w).
Proof.
  unfold Worker.scheduled, waitUntil, world_after, events.
  destruct (handleScheduled parse env w) as [[r w'] ev]. reflexivity.
Qed.

(** Claim C10.  The HTTP handler returns, for every request, a response
    with status 200 and a JSON content type.  Two requests with the same
    path get the same treatment, whatever their methods and queries.  The
    path [/check] runs the run controller and acknowledges; the path
    [/health] reports healthy with the current time and touches nothing;
    every other path gets the service description and touches nothing. *)
Theorem fetch_handler_routes parse request env w :
  exists resp w' ev,
    Worker.fetch parse request env w = (Ok resp, w', ev) /\
    response_status resp = 200 /\
    response_headers resp = [("Content-Type", "application/json")] /\
    (forall other, pathname other = pathname request ->
       Worker.fetch parse other env w = Worker.fetch parse request env w) /\
    (pathname request = "/check" ->
       w' = world_after (handleScheduled parse env) w /\
       ev = events (handleScheduled parse env) w /\
       response_body resp =
         JObj [ ("status", JStr "ok");
                ("message", JStr "检查任务已触发，请查看日志") ]) /\
    (pathname request = "/health" ->
       w' = w /\ ev = [] /\
       response_body resp =
         JObj [ ("status", JStr "healthy"); ("timestamp", JStr (clock w)) ]) /\
    (pathname request <> "/check" -> pathname request <> "/health" ->
       w' = w /\ ev = [] /\
       response_body resp =
         JObj [ ("name", JStr "Cursor 按量付费监控");
                ("endpoints",
                 JObj [ ("/check", JStr "手动触发检查");
                        ("/health", JStr "健康检查") ]) ]).
Proof.
  assert (Hroute : forall other, pathname other = pathname request ->
            Worker.fetch parse other env w = Worker.fetch parse request env w)
    by (intros other E; unfold Worker.fetch; rewrite E; reflexivity).
  destruct (Worker.fetch parse request env w) as [[r w'] ev] eqn:E.
  unfold Worker.fetch in E.
  destruct (String.eqb_spec (pathname request) "/check") as [Hc|Hc].
  - unfold bind, waitUntil, world_after, events in *.
    destruct (handleScheduled parse env w) as [[r0 w0] ev0].
    cbn in E. injection E as <- <- <-.
    do 3 eexists. split; [reflexivity|]. cbn [fst snd].
    repeat split; try (rewrite app_nil_r; reflexivity); try congruence;
      try exact Hroute.
  - destruct (String.eqb_spec (pathname request) "/health") as [Hh|Hh];
      cbn in E; injection E as <- <- <-;
      do 3 eexists; (split; [reflexivity|]);
      repeat split; try congruence; try exact Hroute.
Qed.

(** * Further properties *)

(** ** The leaves *)

(** Property X1.  [checkHardLimit] returns for every cookie, it never
    throws, after exactly one outbound request: the status request with
    that cookie.  It returns a status exactly when the reply is a response
    with a success status whose body parses, and then the parsed body; in
    every other case it returns the failure marker. *)
Theorem checkHardLimit_contract cookie w :
  exists st w' ev,
    checkHardLimit cookie w = (Ok st, w', ev) /\
    outbound_calls ev = [status_call cookie] /\
    forall v,
      st = Some v <->
      exists r tl,
        get_hard_limit w = Replied r :: tl /\
        ok r = true /\ json_body r = inr v.
Proof.
  unfold checkHardLimit, try_catch, bind, fetch.
  cbn [script dashboard_get_hard_limit advance].
  destruct (get_hard_limit w) as [|[e|[o s [e|v]]] tl].
  - do 3 eexists. split; [reflexivity|]. split; [reflexivity|].
    intros v. split; [discriminate|]. intros (r & tl & H & _). discriminate H.
  - do 3 eexists. split; [reflexivity|]. split; [reflexivity|].
    intros v. split; [discriminate|]. intros (r & tl' & H & _). discriminate H.
  - destruct o; do 3 eexists; (split; [reflexivity|]); (split; [reflexivity|]);
      intros v; (split; [discriminate|]);
      intros (r & tl' & H & Hok & Hb); injection H as <- <-;
      cbn in Hok, Hb; congruence.
  - destruct o; do 3 eexists; (split; [reflexivity|]); (split; [reflexivity|]);
      intros v'; split.
    + intros [= <-]. eexists _, tl. repeat split.
    + intros (r & tl' & H & Hok & Hb). injection H as <- <-.
      cbn in Hb. congruence.
    + discriminate.
    + intros (r & tl' & H & Hok & Hb). injection H as <- <-.
      cbn in Hok. discriminate Hok.
Qed.

(** Property X2.  [disableHardLimit] returns for every cookie, it never
    throws, after exactly one outbound request: the disable request with
    that cookie and the fixed body.  It returns [true] exactly when the
    reply is a response with a success status; the body of the response is
    not looked at. *)
Theorem disableHardLimit_contract cookie w :
  exists b w' ev,
    disableHardLimit cookie w = (Ok b, w', ev) /\
    outbound_calls ev = [disable_call cookie] /\
    (b = true <->
     exists r tl, set_hard_limit w = Replied r :: tl /\ ok r = true).
Proof.
  unfold disableHardLimit, try_catch, bind, fetch.
  cbn [script dashboard_set_hard_limit advance].
  destruct (set_hard_limit w) as [|[e|[o s b]] tl].
  - do 3 eexists. split; [reflexivity|]. split; [reflexivity|].
    split; [discriminate|]. intros (r & tl & H & _). discriminate H.
  - do 3 eexists. split; [reflexivity|]. split; [reflexivity|].
    split; [discriminate|]. intros (r & tl' & H & _). discriminate H.
  - destruct o; do 3 eexists; (split; [reflexivity|]); (split; [reflexivity|]);
      split.
    + intros _. eexists _, tl. split; reflexivity.
    + reflexivity.
    + discriminate.
    + intros (r & tl' & H & Hok). injection H as <- <-. cbn in Hok.
      discriminate Hok.
Qed.

(** The traffic of the leaves. *)
Lemma checkHardLimit_traffic cookie w st w' ev :
  checkHardLimit cookie w = (Ok st, w', ev) ->
  outbound_calls ev = [status_call cookie] /\
  webhook_calls ev = [].
Proof.
  unfold checkHardLimit, try_catch, bind, fetch.
  cbn [script dashboard_get_hard_limit advance].
  destruct (get_hard_limit w) as [|[e|[o s [e|v]]] tl];
    try destruct o; cbn; intros [= <- <- <-]; split; reflexivity.
Qed.

Lemma disableHardLimit_traffic cookie w b w' ev :
  disableHardLimit cookie w = (Ok b, w', ev) ->
  outbound_calls ev = [disable_call cookie] /\
  webhook_calls ev = [].
Proof.
  unfold disableHardLimit, try_catch, bind, fetch.
  cbn [script dashboard_set_hard_limit advance].
  destruct (set_hard_limit w) as [|[e|[o s b']] tl];
    try destruct o; cbn; intros [= <- <- <-]; split; reflexivity.
Qed.

Lemma sendWeChatNotification_traffic key msg w b w' ev :
  sendWeChatNotification key msg w = (Ok b, w', ev) ->
  outbound_calls ev = webhook_calls ev /\
  webhook_calls ev =
    match truthy key with
    | Some k => [Fetch (WEBHOOK_URL k) (text_message msg)]
    | None => []
    end.
Proof.
  unfold sendWeChatNotification.
  destruct (truthy key) as [k|].
  - unfold try_catch, bind, fetch. cbn [script wechat_webhook advance].
    destruct (webhook_send w) as [|[e|[o s [e|v]]] tl];
      try destruct o; try destruct (errcode v =? 0) eqn:E;
      cbn; rewrite ?E; cbn; intros [= <- <- <-]; split; reflexivity.
  - cbn. intros [= <- <- <-]. split; reflexivity.
Qed.

(** One account: the outbound requests are the dashboard calls, then the
    webhook request, if any. *)
Lemma processAccount_traffic a key w w' ev :
  processAccount a key w = (Ok tt, w', ev) ->
  outbound_calls ev = (dashboard_calls ev ++ webhook_calls ev)%list /\
  webhook_calls ev = filter is_webhook_call (notifications ev).
Proof.
  destruct (checkHardLimit_run (cookie a) w)
    as (st & w1 & ev1 & Hc & Hs1 & Hd1 & Hb1 & Hn1 & _).
  destruct (checkHardLimit_traffic _ _ _ _ _ Hc) as [Ho1 Hw1].
  unfold processAccount.
  unfold bind at 1. cbn [console_log emit].
  unfold bind at 1. rewrite Hc.
  destruct st as [s|].
  - destruct (is_true (noUsageBasedAllowed s)).
    + cbn. intros [= <- <-]. split; survey.
    + destruct (positive_limit (hardLimit s)) as [limit|].
      * destruct (disableHardLimit_run (cookie a) w1)
          as (w2 & ev2 & Hd & Hd2 & Hs2 & Hb2 & Hn2 & _).
        destruct (disableHardLimit_traffic _ _ _ _ _ Hd) as [Ho2 Hw2].
        unfold bind at 1. cbn [console_warn emit].
        unfold bind at 1. rewrite Hd.
        set (msg := if disable_accepted w1 then MSG_DISABLED (email a) limit
                    else MSG_DISABLE_FAILED (email a)).
        destruct (sendWeChatNotification_run key msg w2)
          as (b & w3 & ev3 & Hn & Hn3 & Hs3 & Hd3 & Hb3 & Hsame & _).
        destruct (sendWeChatNotification_traffic _ _ _ _ _ _ Hn) as [Ho3 Hw3].
        unfold bind at 1.
        replace (if disable_accepted w1
                 then sendWeChatNotification key (MSG_DISABLED (email a) limit)
                 else sendWeChatNotification key (MSG_DISABLE_FAILED (email a)))
          with (sendWeChatNotification key msg)
          by (unfold msg; destruct (disable_accepted w1); reflexivity).
        rewrite Hn. cbn [ret]. intros [= <- <-].
        split; survey.
        unfold notification. destruct (truthy key); reflexivity.
      * cbn. intros [= <- <-]. split; survey.
  - unfold bind at 1. cbn [console_error emit].
    destruct (sendWeChatNotification_run key (MSG_CHECK_FAILED (email a)) w1)
      as (b & w3 & ev3 & Hn & Hn3 & Hs3 & Hd3 & Hb3 & Hsame & _).
    destruct (sendWeChatNotification_traffic _ _ _ _ _ _ Hn) as [Ho3 Hw3].
    unfold bind at 1. rewrite Hn. cbn [ret]. intros [= <- <-].
    split; survey.
    unfold notification. destruct (truthy key); reflexivity.
Qed.

(** ** One account *)

(** When the decision acts, in the terms of the status. *)
Lemma detected_limit_iff st limit :
  detected_limit st = Some limit <->
  exists s,
    st = Some s /\ noUsageBasedAllowed s <> Some true /\
    hardLimit s = Some limit /\ 0 < limit.
Proof.
  unfold detected_limit, positive_limit, is_true. split.
  - destruct st as [s|]; [|discriminate].
    destruct (noUsageBasedAllowed s) as [[|]|] eqn:Hf; try discriminate;
      (destruct (hardLimit s) as [l|] eqn:Hl; [|discriminate]);
      destruct (Z.gtb_spec l 0); try discriminate;
      intros [= <-]; exists s; repeat split; (congruence || lia).
  - intros (s & -> & Hf & Hl & Hpos). rewrite Hl.
    destruct (noUsageBasedAllowed s) as [[|]|]; try congruence;
      destruct (Z.gtb_spec limit 0); (reflexivity || lia).
Qed.

Lemma detected_limit_none_iff st :
  detected_limit st = None <->
  st = None \/
  exists s,
    st = Some s /\
    (noUsageBasedAllowed s = Some true \/
     forall limit, hardLimit s = Some limit -> limit <= 0).
Proof.
  split.
  - intros H. destruct st as [s|]; [right|left; reflexivity].
    exists s. split; [reflexivity|].
    destruct (noUsageBasedAllowed s) as [[|]|] eqn:Hf; [left; reflexivity| |];
      right; intros limit Hl;
      destruct (Z.le_gt_cases limit 0) as [|Hpos]; try assumption;
      assert (detected_limit (Some s) = Some limit)
        by (apply detected_limit_iff; exists s; repeat split;
            (congruence || lia));
      congruence.
  - intros [-> | (s & -> & H)]; [reflexivity|].
    destruct (detected_limit (Some s)) as [limit|] eqn:E; [|reflexivity].
    apply detected_limit_iff in E. destruct E as (s' & [= <-] & Hf & Hl & Hpos).
    destruct H as [H | H]; [congruence|]. specialize (H _ Hl). lia.
Qed.

(** Property X3.  [processAccount] makes at most one disable call, and
    makes one exactly when the status check returned a status that does
    not carry [noUsageBasedAllowed = true] and has a [hardLimit] above
    zero: never on a failed check, a disallowed flag, an absent limit, or
    a limit of zero or below. *)
Theorem disable_only_when_limit_detected a key w :
  exists st w' ev,
    outcome (checkHardLimit (cookie a)) w = Ok st /\
    processAccount a key w = (Ok tt, w', ev) /\
    (disable_calls ev = [] \/ disable_calls ev = [disable_call (cookie a)]) /\
    (disable_calls ev <> [] <->
     exists s limit,
       st = Some s /\ noUsageBasedAllowed s <> Some true /\
       hardLimit s = Some limit /\ 0 < limit).
Proof.
  destruct (checkHardLimit_run (cookie a) w) as (st & w1 & ev1 & Hc & _).
  destruct (processAccount_run a key w st w1 ev1 Hc)
    as (w' & ev & Hp & _ & Hd & _).
  exists st, w', ev. unfold outcome. rewrite Hc. cbn [fst].
  repeat split; try assumption.
  - destruct (detected_limit st); auto.
  - intros Hne. destruct (detected_limit st) as [limit|] eqn:E;
      [|congruence].
    apply detected_limit_iff in E. destruct E as (s & E). eauto.
  - intros (s & limit & E).
    assert (H : detected_limit st = Some limit)
      by (apply detected_limit_iff; eauto).
    rewrite Hd, H. discriminate.
Qed.

(** Property X4.  [processAccount] leaves no notification exactly when the
    status check returned a status that carries [noUsageBasedAllowed =
    true] or whose [hardLimit] is absent or not above zero. *)
Theorem silent_exactly_when_normal a key w :
  exists st w' ev,
    outcome (checkHardLimit (cookie a)) w = Ok st /\
    processAccount a key w = (Ok tt, w', ev) /\
    (notifications ev = [] <->
     exists s,
       st = Some s /\
       (noUsageBasedAllowed s = Some true \/
        forall limit, hardLimit s = Some limit -> limit <= 0)).
Proof.
  destruct (checkHardLimit_run (cookie a) w) as (st & w1 & ev1 & Hc & _).
  destruct (processAccount_run a key w st w1 ev1 Hc)
    as (w' & ev & Hp & _ & _ & _ & Hn & _).
  exists st, w', ev. unfold outcome. rewrite Hc. cbn [fst].
  repeat split; try assumption.
  - intros Hnone. destruct st as [s|]; [|rewrite Hn in Hnone; discriminate].
    destruct (detected_limit (Some s)) eqn:E;
      [rewrite Hn in Hnone; discriminate|].
    apply detected_limit_none_iff in E.
    destruct E as [E | (s' & [= <-] & E)]; [discriminate|]. eauto.
  - intros (s & -> & H).
    assert (E : detected_limit (Some s) = None)
      by (apply detected_limit_none_iff; right; eauto).
    rewrite Hn, E. reflexivity.
Qed.

(** Property X5.  The outbound requests of [processAccount] are, in this
    order: the status check; then the disable call, if there is one; then
    the request to the webhook, if there is one, which needs a key that is
    set.  There are at most three, and nothing is sent to the webhook
    before the dashboard calls are over. *)
Theorem processAccount_outbound_order a key w :
  exists w' ev disables hooks,
    processAccount a key w = (Ok tt, w', ev) /\
    outbound_calls ev = (status_call (cookie a) :: disables ++ hooks)%list /\
    (disables = [] \/ disables = [disable_call (cookie a)]) /\
    (hooks = [] \/
     exists k msg,
       truthy key = Some k /\
       hooks = [Fetch (WEBHOOK_URL k) (text_message msg)]).
Proof.
  destruct (checkHardLimit_run (cookie a) w) as (st & w1 & ev1 & Hc & _).
  destruct (processAccount_run a key w st w1 ev1 Hc)
    as (w' & ev & Hp & _ & _ & Hb & Hn & _).
  destruct (processAccount_traffic _ _ _ _ _ Hp) as [Ho Hw].
  exists w', ev,
    (match detected_limit st with
     | Some _ => [disable_call (cookie a)]
     | None => []
     end), (webhook_calls ev).
  split; [exact Hp|]. split; [rewrite Ho, Hb; reflexivity|].
  split; [destruct (detected_limit st); auto|].
  rewrite Hw, Hn. unfold notification.
  destruct (truthy key) as [k|] eqn:Hk.
  - destruct st as [s|]; [destruct (detected_limit (Some s))|];
      try (left; reflexivity); right; do 2 eexists;
      (split; [reflexivity|]); reflexivity.
  - left. destruct st as [s|]; [destruct (detected_limit (Some s))|];
      reflexivity.
Qed.

(** The cookie shows in the dashboard request only. *)
Lemma checkHardLimit_cookie_free c1 c2 w :
  exists st w' ev1 ev2,
    checkHardLimit c1 w = (Ok st, w', ev1) /\
    checkHardLimit c2 w = (Ok st, w', ev2) /\
    off_dashboard ev1 = off_dashboard ev2.
Proof.
  unfold checkHardLimit, try_catch, bind, fetch.
  cbn [script dashboard_get_hard_limit advance].
  destruct (get_hard_limit w) as [|[e|[o s [e|v]]] tl];
    try destruct o; do 4 eexists; repeat split.
Qed.

Lemma disableHardLimit_cookie_free c1 c2 w :
  exists b w' ev1 ev2,
    disableHardLimit c1 w = (Ok b, w', ev1) /\
    disableHardLimit c2 w = (Ok b, w', ev2) /\
    off_dashboard ev1 = off_dashboard ev2.
Proof.
  unfold disableHardLimit, try_catch, bind, fetch.
  cbn [script dashboard_set_hard_limit advance].
  destruct (set_hard_limit w) as [|[e|[o s b]] tl];
    try destruct o; do 4 eexists; repeat split.
Qed.

Lemma off_dashboard_app ev1 ev2 :
  off_dashboard (ev1 ++ ev2) = (off_dashboard ev1 ++ off_dashboard ev2)%list.
Proof. apply filter_app. Qed.

Lemma off_dashboard_console lvl line ev :
  off_dashboard (Console lvl line :: ev) = Console lvl line :: off_dashboard ev.
Proof. reflexivity. Qed.

(** Property X6.  The cookie of an account goes into the dashboard requests
    and nowhere else: two accounts with the same email and any two cookies,
    processed from the same world, give the same result, the same world,
    and the same console lines and webhook requests. *)
Theorem cookie_stays_with_dashboard a1 a2 key w :
  email a1 = email a2 ->
  outcome (processAccount a1 key) w = outcome (processAccount a2 key) w /\
  world_after (processAccount a1 key) w
    = world_after (processAccount a2 key) w /\
  off_dashboard (events (processAccount a1 key) w)
    = off_dashboard (events (processAccount a2 key) w).
Proof.
  intros Hemail.
  destruct (checkHardLimit_cookie_free (cookie a1) (cookie a2) w)
    as (st & w1 & ev1 & ev1' & Hc1 & Hc2 & Hoff1).
  unfold outcome, world_after, events.
  destruct (processAccount a1 key w) as [[r1 u1] e1] eqn:E1.
  destruct (processAccount a2 key w) as [[r2 u2] e2] eqn:E2.
  unfold processAccount in E1, E2. rewrite <- Hemail in E2.
  unfold bind at 1 in E1. unfold bind at 1 in E2. cbn [console_log emit] in E1, E2.
  unfold bind at 1 in E1. unfold bind at 1 in E2. rewrite Hc1 in E1. rewrite Hc2 in E2.
  cbn [fst snd].
  destruct st as [s|].
  - destruct (is_true (noUsageBasedAllowed s)).
    + cbn in E1, E2. injection E1 as <- <- <-. injection E2 as <- <- <-.
      repeat (rewrite off_dashboard_console || rewrite off_dashboard_app); rewrite ?Hoff1; auto.
    + destruct (positive_limit (hardLimit s)) as [limit|].
      * destruct (disableHardLimit_cookie_free (cookie a1) (cookie a2) w1)
          as (b & w2 & ev2 & ev2' & Hd1 & Hd2 & Hoff2).
        unfold bind at 1 in E1. unfold bind at 1 in E2.
        cbn [console_warn emit] in E1, E2.
        unfold bind at 1 in E1. unfold bind at 1 in E2.
        rewrite Hd1 in E1. rewrite Hd2 in E2.
        unfold bind in E1, E2.
        destruct ((if b
                   then sendWeChatNotification key
                          (MSG_DISABLED (email a1) limit)
                   else sendWeChatNotification key
                          (MSG_DISABLE_FAILED (email a1))) w2)
          as [[[r|e] w3] ev3]; cbn [ret] in E1, E2;
          injection E1 as <- <- <-; injection E2 as <- <- <-;
          repeat (rewrite off_dashboard_console
                  || rewrite off_dashboard_app);
          rewrite ?Hoff1, ?Hoff2; auto.
      * cbn in E1, E2. injection E1 as <- <- <-. injection E2 as <- <- <-.
        repeat (rewrite off_dashboard_console || rewrite off_dashboard_app); rewrite ?Hoff1; auto.
  - unfold bind in E1, E2. cbn [console_error emit] in E1, E2.
    destruct (sendWeChatNotification key (MSG_CHECK_FAILED (email a1)) w1)
      as [[[r|e] w3] ev3]; cbn [ret] in E1, E2;
      injection E1 as <- <- <-; injection E2 as <- <- <-;
      repeat (rewrite off_dashboard_console || rewrite off_dashboard_app); rewrite ?Hoff1; auto.
Qed.

(** The hypothesis of X6 holds for an account whose cookie was renewed. *)
Lemma cookie_stays_with_dashboard_witness :
  off_dashboard (events (processAccount alice (Some "k")) world_limit_on)
    = off_dashboard
        (events (processAccount alice_renewed (Some "k")) world_limit_on) /\
  dashboard_calls
    (events (processAccount alice_renewed (Some "k")) world_limit_on)
    = [status_call "c9"; disable_call "c9"].
Proof.
  split; [|reflexivity].
  apply (cookie_stays_with_dashboard alice alice_renewed (Some "k")
           world_limit_on).
  reflexivity.
Defined.

Lemma MSG_DISABLED_names email limit :
  contains email (MSG_DISABLED email limit) = true.
Proof. unfold MSG_DISABLED. apply contains_app. Qed.

Lemma MSG_DISABLE_FAILED_names email :
  contains email (MSG_DISABLE_FAILED email) = true.
Proof. unfold MSG_DISABLE_FAILED. apply contains_app. Qed.

(** Property X7.  Every request that [processAccount] sends to the webhook
    goes to the URL of the key and carries a text that names the
    account. *)
Theorem notifications_name_the_account a key w :
  Forall
    (fun e =>
       exists k msg,
         truthy key = Some k /\
         e = Fetch (WEBHOOK_URL k) (text_message msg) /\
         contains (email a) msg = true)
    (webhook_calls (events (processAccount a key) w)).
Proof.
  destruct (checkHardLimit_run (cookie a) w) as (st & w1 & ev1 & Hc & _).
  destruct (processAccount_run a key w st w1 ev1 Hc)
    as (w' & ev & Hp & _ & _ & _ & Hn & _).
  destruct (processAccount_traffic _ _ _ _ _ Hp) as [_ Hw].
  unfold events. rewrite Hp. cbn [snd]. rewrite Hw, Hn.
  unfold notification.
  destruct (truthy key) as [k|] eqn:Hk.
  - destruct st as [s|]; [destruct (detected_limit (Some s))|];
      cbn [filter is_webhook_call];
      try (change (starts_with (WEBHOOK_URL "") (WEBHOOK_URL k)) with true;
           cbn iota);
      repeat constructor; do 2 eexists; (split; [reflexivity|]);
      (split; [reflexivity|]).
    + destruct (disable_accepted w1);
        auto using MSG_DISABLED_names, MSG_DISABLE_FAILED_names.
    + apply MSG_CHECK_FAILED_wording.
  - destruct st as [s|]; [destruct (detected_limit (Some s))|];
      constructor.
Qed.

(** Property X8.  For one account and one limit, the six notification
    texts of the worker (check failed, limit turned off, turning off
    failed, processing error, configuration missing, configuration
    malformed) are pairwise different. *)
Theorem messages_pairwise_distinct email limit :
  NoDup [ MSG_CHECK_FAILED email;
          MSG_DISABLED email limit;
          MSG_DISABLE_FAILED email;
          MSG_ACCOUNT_ERROR email;
          MSG_CONFIG_MISSING;
          MSG_CONFIG_MALFORMED ].
Proof.
  assert (Hcut : forall x y : string,
             "账号 " ++ email ++ x = "账号 " ++ email ++ y -> x = y)
    by (intros x y H; apply append_cancel_l, append_cancel_l in H; exact H).
  unfold MSG_CHECK_FAILED, MSG_DISABLED, MSG_DISABLE_FAILED,
    MSG_ACCOUNT_ERROR, MSG_CONFIG_MISSING, MSG_CONFIG_MALFORMED.
  repeat constructor; cbn [In]; intros H;
    repeat match type of H with
           | _ \/ _ => destruct H as [H | H]
           end;
    try contradiction;
    try (apply Hcut in H; cbn in H; discriminate H);
    try (cbn in H; discriminate H).
Qed.

(** ** A run *)

(** The loop is the accounts' runs, one after the other. *)
Lemma for_each_processAccount_runs key accounts : forall w,
  exists w' evs,
    for_each_account processAccount key accounts w = (Ok tt, w', concat evs) /\
    Forall2 (account_run key) accounts evs.
Proof.
  induction accounts as [|a rest IH]; intros w.
  - exists w, []. split; [reflexivity | constructor].
  - destruct (processAccount_returns a key w) as (w1 & ev1 & Hp).
    destruct (IH w1) as (w2 & evs & Hl & Hall).
    exists w2, (ev1 :: evs). split.
    + rewrite for_each_account_cons. cbn [concat].
      apply bind_ok with (a := tt) (w1 := w1); [|exact Hl].
      unfold try_catch. rewrite Hp. reflexivity.
    + constructor; [exists w, w1; exact Hp | exact Hall].
Qed.

Lemma filter_log_lines (p : Event -> bool) lines :
  (forall line, p (Console Log line) = false) ->
  filter p (map (Console Log) lines) = [].
Proof.
  intros Hp. induction lines as [|l lines IH]; [reflexivity|].
  cbn. rewrite Hp. exact IH.
Qed.

(** A run over a stored list: log lines, the accounts' runs in order, log
    lines. *)
Lemma handleScheduled_runs parse env w accountsJson accounts :
  CURSOR_KV env "cursor_accounts" = Some accountsJson ->
  accountsJson <> "" ->
  parse accountsJson = inr accounts ->
  exists w' opening evs closing,
    handleScheduled parse env w =
    (Ok tt, w',
     (map (Console Log) opening ++ concat evs
        ++ map (Console Log) closing)%list) /\
    Forall2 (account_run (WECHAT_WEBHOOK_KEY env)) accounts evs.
Proof.
  intros Hkv Hne Hparse. unfold handleScheduled.
  destruct accounts as [|a rest].
  - assert (Ht : truthy (CURSOR_KV env "cursor_accounts") = Some accountsJson)
      by (rewrite Hkv; apply truthy_present, Hne).
    rewrite (run_empty_list parse _ env w _ Ht Hparse).
    exists w, ["=== Cursor 按量付费监控任务开始 ===";
               "执行时间: " ++ clock w; "账号列表为空"], [], [].
    split; [reflexivity | constructor].
  - destruct (for_each_processAccount_runs (WECHAT_WEBHOOK_KEY env)
                (a :: rest) w) as (w' & evs & Hl & Hall).
    rewrite (handleScheduled_with_accounts parse _ env w _ _ _ _
               Hkv Hne Hparse ltac:(discriminate) Hl).
    exists w', ["=== Cursor 按量付费监控任务开始 ===";
                "执行时间: " ++ clock w;
                "共有 " ++ length_to_string (a :: rest) ++ " 个账号需要检查"],
           evs, ["=== Cursor 按量付费监控任务完成 ==="].
    split; [reflexivity | exact Hall].
Qed.

Lemma filter_run (p : Event -> bool) opening evs closing :
  (forall line, p (Console Log line) = false) ->
  filter p (map (Console Log) opening ++ concat evs
              ++ map (Console Log) closing)%list
  = concat (map (filter p) evs).
Proof.
  intros Hp.
  rewrite !filter_app, !filter_log_lines, app_nil_r by exact Hp.
  cbn [app]. symmetry. apply concat_filter_map.
Qed.

(** What one account's run shows. *)
Lemma account_run_facts key a ev :
  account_run key a ev ->
  status_calls ev = [status_call (cookie a)] /\
  (exists disabled, dashboard_calls ev = account_calls a disabled) /\
  (length (outbound_calls ev) <= 3)%nat /\
  (length (notifications ev) <= 1)%nat /\
  (truthy key = None -> webhook_calls ev = []).
Proof.
  intros (w0 & w1 & Hp).
  destruct (checkHardLimit_run (cookie a) w0) as (st & u & e & Hc & _).
  destruct (processAccount_run a key w0 st u e Hc)
    as (w' & ev' & Hp' & Hs & Hd & Hb & Hn & _).
  rewrite Hp in Hp'. injection Hp' as <- <-.
  destruct (processAccount_traffic _ _ _ _ _ Hp) as [Ho Hw].
  assert (Hwl : (length (webhook_calls ev) <= length (notifications ev))%nat)
    by (rewrite Hw; apply filter_length_le).
  assert (Hnl : (length (notifications ev) <= 1)%nat)
    by (rewrite Hn; destruct st as [s|];
        [destruct (detected_limit (Some s))|]; cbn; lia).
  repeat split; try assumption.
  - exists (match detected_limit st with Some _ => true | None => false end).
    rewrite Hb. unfold account_calls. destruct (detected_limit st); reflexivity.
  - rewrite Ho, length_app, Hb.
    destruct (detected_limit st); cbn [length]; lia.
  - intros Hk. rewrite Hw, Hn. unfold notification. rewrite Hk.
    destruct st as [s|]; [destruct (detected_limit (Some s))|]; reflexivity.
Qed.

(** What the accounts' runs add up to. *)
Lemma runs_status_calls key accounts evs :
  Forall2 (account_run key) accounts evs ->
  concat (map (filter is_status_call) evs)
  = map (fun a => status_call (cookie a)) accounts.
Proof.
  induction 1 as [|a ev accounts evs Hrun _ IH]; [reflexivity|].
  destruct (account_run_facts _ _ _ Hrun) as (Hs & _).
  cbn [map concat]. unfold status_calls in Hs. rewrite Hs, IH. reflexivity.
Qed.

Lemma runs_dashboard_calls key accounts evs :
  Forall2 (account_run key) accounts evs ->
  exists flags,
    length flags = length accounts /\
    concat (map (filter is_dashboard_call) evs)
    = concat (map (fun af => account_calls (fst af) (snd af))
                  (combine accounts flags)).
Proof.
  induction 1 as [|a ev accounts evs Hrun _ (flags & Hlen & IH)].
  - exists []. split; reflexivity.
  - destruct (account_run_facts _ _ _ Hrun) as (_ & (f & Hb) & _).
    exists (f :: flags). split; [cbn; congruence|].
    cbn [map concat combine fst snd]. unfold dashboard_calls in Hb.
    rewrite Hb, IH. reflexivity.
Qed.

Lemma runs_bounded key accounts evs :
  Forall2 (account_run key) accounts evs ->
  (length (concat (map (filter is_fetch) evs)) <= 3 * length accounts)%nat /\
  (length (concat (map (filter is_notification) evs))
     <= length accounts)%nat.
Proof.
  induction 1 as [|a ev accounts evs Hrun _ [IH1 IH2]]; [cbn; lia|].
  destruct (account_run_facts _ _ _ Hrun) as (_ & _ & Ho & Hn & _).
  unfold outbound_calls, notifications in Ho, Hn.
  cbn [map concat length]. rewrite !length_app. lia.
Qed.

Lemma runs_without_key key accounts evs :
  truthy key = None ->
  Forall2 (account_run key) accounts evs ->
  concat (map (filter is_webhook_call) evs) = [].
Proof.
  intros Hk. induction 1 as [|a ev accounts evs Hrun _ IH]; [reflexivity|].
  destruct (account_run_facts _ _ _ Hrun) as (_ & _ & _ & _ & Hw).
  cbn [map concat]. unfold webhook_calls in Hw. rewrite (Hw Hk), IH.
  reflexivity.
Qed.

(** Property X9.  A run over a stored list checks every account of the
    list exactly once, in the order of the list, whatever the dashboard and
    the webhook answer; and its dashboard calls are, account by account, the
    status check followed by at most one disable call with the same
    cookie. *)
Theorem run_checks_every_account parse env w accountsJson accounts :
  CURSOR_KV env "cursor_accounts" = Some accountsJson ->
  accountsJson <> "" ->
  parse accountsJson = inr accounts ->
  status_calls (events (handleScheduled parse env) w)
    = map (fun a => status_call (cookie a)) accounts /\
  exists flags,
    length flags = length accounts /\
    dashboard_calls (events (handleScheduled parse env) w)
    = concat (map (fun af => account_calls (fst af) (snd af))
                  (combine accounts flags)).
Proof.
  intros Hkv Hne Hparse.
  destruct (handleScheduled_runs parse env w _ _ Hkv Hne Hparse)
    as (w' & opening & evs & closing & Hrun & Hall).
  unfold events, status_calls, dashboard_calls. rewrite Hrun. cbn [snd].
  rewrite !filter_run by reflexivity.
  split; [exact (runs_status_calls _ _ _ Hall)|].
  exact (runs_dashboard_calls _ _ _ Hall).
Qed.

(** The hypotheses of X9 hold for a stored list of three accounts. *)
Lemma run_checks_every_account_witness :
  status_calls
    (events (handleScheduled sample_parse
               (env_with (Some (accounts_text [alice; bob; carol]))
                         (Some "k")))
            world_three)
    = [status_call "c1"; status_call "c2"; status_call "c3"].
Proof.
  destruct (run_checks_every_account sample_parse
              (env_with (Some (accounts_text [alice; bob; carol])) (Some "k"))
              world_three (accounts_text [alice; bob; carol])
              [alice; bob; carol]) as [H _].
  - reflexivity.
  - discriminate.
  - reflexivity.
  - exact H.
Defined.

(** Property X10.  A run over a stored list of [n] accounts makes at most
    [3 * n] outbound requests and leaves at most [n] notifications. *)
Theorem run_calls_bounded parse env w accountsJson accounts :
  CURSOR_KV env "cursor_accounts" = Some accountsJson ->
  accountsJson <> "" ->
  parse accountsJson = inr accounts ->
  (length (outbound_calls (events (handleScheduled parse env) w))
     <= 3 * length accounts)%nat /\
  (length (notifications (events (handleScheduled parse env) w))
     <= length accounts)%nat.
Proof.
  intros Hkv Hne Hparse.
  destruct (handleScheduled_runs parse env w _ _ Hkv Hne Hparse)
    as (w' & opening & evs & closing & Hrun & Hall).
  unfold events, outbound_calls, notifications. rewrite Hrun. cbn [snd].
  rewrite !filter_run by reflexivity.
  exact (runs_bounded _ _ _ Hall).
Qed.

(** The hypotheses of X10 hold for a stored list of three accounts: at
    most nine requests. *)
Lemma run_calls_bounded_witness :
  (length
     (outbound_calls
        (events (handleScheduled sample_parse
                   (env_with (Some (accounts_text [alice; bob; carol]))
                             (Some "k")))
                world_three)) <= 9)%nat.
Proof.
  destruct (run_calls_bounded sample_parse
              (env_with (Some (accounts_text [alice; bob; carol])) (Some "k"))
              world_three (accounts_text [alice; bob; carol])
              [alice; bob; carol]) as [H _].
  - reflexivity.
  - discriminate.
  - reflexivity.
  - exact H.
Defined.

(** Property X11.  When the run returns and when it throws.  For every
    world and every per-account step the run controller returns unless
    the stored entry is there and parses to a value that breaks the run:
    [null], a boolean, a number, an object whose [length] is not zero, or
    an array with an item whose [email] has no text, [null] for one.  On
    such a value the worker's run throws a [TypeError] past the run
    controller.  No stored list of accounts is such a value. *)
Theorem run_returns_unless_value_breaks parse env w :
  (forall process,
     stored_value_breaks parse env = false ->
     outcome (Unchecked.handleScheduled_with parse process env) w = Ok tt) /\
  (stored_value_breaks parse env = true ->
   exists error,
     outcome (Unchecked.handleScheduled parse env) w = Throw error /\
     name error = "TypeError") /\
  (forall typed, stored_value_breaks (unchecked typed) env = false).
Proof.
  split; [|split].
  - intros process Hv.
    destruct (unchecked_run_returns parse process env w Hv) as (w' & ev & H).
    unfold outcome. rewrite H. reflexivity.
  - intros Hv.
    destruct (unchecked_run_throws parse env w Hv)
      as (error & w' & ev & H & Hname).
    exists error. unfold outcome. rewrite H. auto.
  - intros typed. unfold stored_value_breaks, unchecked.
    destruct (truthy (CURSOR_KV env "cursor_accounts")) as [accountsJson|];
      [|reflexivity].
    destruct (typed accountsJson) as [error|accounts]; [reflexivity|].
    apply items_of_accounts_hold.
Qed.

(** Property X12.  When the stored value parses to the empty list, the run
    makes no outbound request, leaves no notification and leaves the world
    as it was, whatever the per-account step is. *)
Theorem empty_list_is_silent parse process env w accountsJson :
  CURSOR_KV env "cursor_accounts" = Some accountsJson ->
  accountsJson <> "" ->
  parse accountsJson = inr [] ->
  world_after (handleScheduled_with parse process env) w = w /\
  outbound_calls (events (handleScheduled_with parse process env) w) = [] /\
  notifications (events (handleScheduled_with parse process env) w) = [].
Proof.
  intros Hkv Hne Hparse.
  assert (Ht : truthy (CURSOR_KV env "cursor_accounts") = Some accountsJson)
    by (rewrite Hkv; apply truthy_present, Hne).
  unfold world_after, events.
  rewrite (run_empty_list parse process env w _ Ht Hparse).
  repeat split.
Qed.

(** The hypotheses of X12 hold for the stored text of the empty list. *)
Lemma empty_list_is_silent_witness :
  outbound_calls
    (events (handleScheduled_with sample_parse processAccount
               (env_with (Some (accounts_text [])) (Some "k")))
            world_limit_on) = [].
Proof.
  destruct (empty_list_is_silent sample_parse processAccount
              (env_with (Some (accounts_text [])) (Some "k"))
              world_limit_on (accounts_text [])) as (_ & H & _).
  - reflexivity.
  - discriminate.
  - reflexivity.
  - exact H.
Defined.

(** Property X13.  With a webhook key that is missing or empty, a run sends
    nothing to the webhook, whatever is stored. *)
Theorem no_key_no_webhook_call parse env w :
  truthy (WECHAT_WEBHOOK_KEY env) = None ->
  webhook_calls (events (handleScheduled parse env) w) = [].
Proof.
  intros Hk. unfold handleScheduled.
  destruct (truthy (CURSOR_KV env "cursor_accounts")) as [accountsJson|] eqn:Ht.
  - destruct (truthy_Some_inv _ _ Ht) as [Hkv Hne].
    destruct (parse accountsJson) as [error|accounts] eqn:Hparse.
    + destruct (run_stops_malformed parse env w _ _ Ht Hparse)
        as (w' & ev & Hrun & Hn & _).
      unfold events. rewrite Hrun. cbn [snd].
      rewrite (notification_reaches_webhook _ _ _ Hn), Hk. reflexivity.
    + destruct (handleScheduled_runs parse env w _ _ Hkv Hne Hparse)
        as (w' & opening & evs & closing & Hrun & Hall).
      unfold handleScheduled in Hrun.
      unfold events, webhook_calls. rewrite Hrun. cbn [snd].
      rewrite filter_run by reflexivity.
      exact (runs_without_key _ _ _ Hk Hall).
  - destruct (run_stops_missing parse env w Ht) as (w' & ev & Hrun & Hn & _).
    unfold events. rewrite Hrun. cbn [snd].
    rewrite (notification_reaches_webhook _ _ _ Hn), Hk. reflexivity.
Qed.

(** The hypothesis of X13 holds for a key that is the empty string. *)
Lemma no_key_no_webhook_call_witness :
  webhook_calls
    (events (handleScheduled sample_parse
               (env_with (Some (accounts_text [alice; bob; carol]))
                         (Some "")))
            world_three) = [].
Proof.
  apply (no_key_no_webhook_call sample_parse
           (env_with (Some (accounts_text [alice; bob; carol])) (Some ""))
           world_three).
  reflexivity.
Defined.

(** Property X14.  A request for [/check] does what the cron trigger does:
    the same events, the same world afterwards. *)
Theorem manual_trigger_is_cron_run parse request env w :
  pathname request = "/check" ->
  world_after (Worker.fetch parse request env) w
    = world_after (Worker.scheduled parse env) w /\
  events (Worker.fetch parse request env) w
    = events (Worker.scheduled parse env) w.
Proof.
  intros Hpath. unfold world_after, events, Worker.fetch, Worker.scheduled.
  rewrite Hpath. cbn [String.eqb Ascii.eqb Bool.eqb].
  unfold bind, waitUntil.
  destruct (handleScheduled parse env w) as [[r w'] ev].
  cbn [ret fst snd]. rewrite app_nil_r. split; reflexivity.
Qed.

(** The hypothesis of X14 holds for a POST to [/check]. *)
Lemma manual_trigger_is_cron_run_witness :
  events (Worker.fetch sample_parse check_request
            (env_with (Some (accounts_text [alice])) (Some "k")))
         world_limit_on
  = events (Worker.scheduled sample_parse
              (env_with (Some (accounts_text [alice])) (Some "k")))
           world_limit_on.
Proof.
  apply (manual_trigger_is_cron_run sample_parse check_request
           (env_with (Some (accounts_text [alice])) (Some "k"))
           world_limit_on).
  reflexivity.
Defined.
